(** * Batch-deshield pattern detector: a shallow embedding and its properties

    The development follows [server/api/scripts/ml-pattern-detector.py]:
    the pattern hash, the amount clusterer, the five-factor scorer, the
    pattern builder and the detection pipeline.

    Python [int] is [Z]; Python and numpy [float] (IEEE 754 binary64) is the
    kernel's primitive [float], whose operations are the processor's; a
    Python exception is the [Raise] branch of [result]. *)

From Stdlib Require Import ZArith List Floats Lia Bool String Ascii.
From stdpp Require Import base list strings sorting gmap.
Import ListNotations.

Local Open Scope Z_scope.
Set Warnings "-inexact-float".

(** ** Exceptions *)

Inductive exn : Type :=
  | ValueError
  | OverflowError
  | InvalidParameterError.

Inductive result (A : Type) : Type :=
  | Ok (a : A)
  | Raise (e : exn).
Arguments Ok {A} a.
Arguments Raise {A} e.

Global Instance result_ret : MRet result := fun A a => Ok a.

Global Instance result_bind : MBind result := fun A B k r =>
  match r with
  | Ok a => k a
  | Raise e => Raise e
  end.

Global Instance result_fmap : FMap result := fun A B f r =>
  match r with
  | Ok a => Ok (f a)
  | Raise e => Raise e
  end.

(** ** Binary64 arithmetic as Python and numpy use it *)

Module Py.

(** [float(z)]: the integer rounded to the nearest binary64, ties to
    even (numpy's cast of an int64 to float64, Python's [float(int)]). *)
Definition float_of_int (z : Z) : float :=
  SF2Prim (binary_normalize prec emax z 0 false).

(** An integer as an unrounded significand with exponent 0. *)
Definition sf_of_int (z : Z) : spec_float :=
  match z with
  | Z0 => S754_zero false
  | Zpos p => S754_finite false p 0
  | Zneg p => S754_finite true p 0
  end.

(** [a / b] on two Python ints: the quotient of the integers rounded once
    (not [float(a) / float(b)]).  Both call sites divide by a non-zero
    integer, so [ZeroDivisionError] is not modelled. *)
Definition int_true_div (a b : Z) : float :=
  SF2Prim (SFdiv prec emax (sf_of_int a) (sf_of_int b)).

(** [int(x)]: truncation toward zero. *)
Definition int_of_float (x : float) : result Z :=
  match Prim2SF x with
  | S754_zero _ => Ok 0
  | S754_infinity _ => Raise OverflowError
  | S754_nan => Raise ValueError
  | S754_finite s m e =>
      let mag := if 0 <=? e then Z.shiftl (Zpos m) e
                 else Z.shiftr (Zpos m) (- e) in
      Ok (if s then - mag else mag)
  end.

(** C's [fmod]: the exact remainder [x - trunc(x/y) * y], which carries
    the sign of [x].  It is always representable, so the final
    normalisation rounds nothing. *)
Definition fmod (x y : float) : float :=
  match Prim2SF x, Prim2SF y with
  | S754_nan, _ | _, S754_nan => nan
  | S754_infinity _, _ => nan
  | _, S754_zero _ => nan
  | _, S754_infinity _ => x
  | S754_zero _, _ => x
  | S754_finite sx mx ex, S754_finite _ my ey =>
      let e0 := Z.min ex ey in
      let X := Z.shiftl (Zpos mx) (ex - e0) in
      let Y := Z.shiftl (Zpos my) (ey - e0) in
      let R := Z.rem X Y in
      SF2Prim (binary_normalize prec emax (if sx then - R else R) e0 sx)
  end.

(** [x % y] on floats, as in CPython's [float_rem] and numpy's
    [npy_divmod]: [fmod], then moved to the sign of the divisor. *)
Definition float_mod (x y : float) : float :=
  let m := fmod x y in
  if (y =? 0)%float then m
  else if negb (m =? 0)%float then
    if negb (Bool.eqb (y <? 0)%float (m <? 0)%float) then (m + y)%float
    else m
  else if (y <? 0)%float then (-0)%float else 0%float.

End Py.

(** The C library's [log10] on the arguments where its value is an
    approximation (positive, finite, other than 1): the last bit depends on
    the platform, so it is an interface of the environment. *)
Class Libm : Type := { libm_log10 : float -> float }.

(** ** numpy reductions

    [np.mean] and [np.std] of a list of Python ints: every element is cast
    to float64, the sum is accumulated in float64 and divided by the count.
    numpy adds the elements of long arrays pairwise; the additions are
    written here from left to right.  No lemma below depends on the order:
    the general ones never unfold the sum, and in the scenarios every
    partial sum is an integer below 2^53, which any order adds exactly. *)

Module Np.

Definition sum (xs : list float) : float :=
  fold_left PrimFloat.add xs 0%float.

Definition count {A : Type} (xs : list A) : float :=
  Py.float_of_int (Z.of_nat (length xs)).

Definition mean (a : list Z) : float :=
  (sum (map Py.float_of_int a) / count a)%float.

(** [sqrt(mean(abs(a - a.mean())**2))], with [ddof = 0]. *)
Definition std (a : list Z) : float :=
  let arrmean := mean a in
  let x := map (fun v => (Py.float_of_int v - arrmean)%float) a in
  sqrt (sum (map (fun d => (d * d)%float) x) / count a)%float.

(** [np.log10] on a float64: the values IEEE 754 and C fix exactly,
    and the library elsewhere. *)
Definition log10 `{Libm} (x : float) : float :=
  if is_nan x then nan
  else if (x <? 0)%float then nan
  else if (x =? 0)%float then neg_infinity
  else if (x =? 1)%float then 0%float
  else if (x =? infinity)%float then infinity
  else libm_log10 x.

(** An int64 array element after an addition: two's complement wrap. *)
Definition wrap_int64 (z : Z) : Z := (z + 2^63) mod 2^64 - 2^63.

End Np.

(** ** Data model *)

(** A row of [shielded_flows] as the queries select it; heights, times
    and amounts are the database's integers. *)
Record Tx : Type := mkTx {
  txid : string;
  block_height : Z;
  block_time : Z;
  amount_zat : Z;
  pool : string
}.

Inductive level : Type := HIGH | MEDIUM | LOW.

Record size_entry : Type := { cs_count : Z; cs_points : Z }.
Record uniformity_entry : Type := { un_cv : float; un_points : Z }.
Record round_entry : Type :=
  { rn_amount_zec : float; rn_is_round : bool; rn_points : Z }.
Record time_entry : Type := { tc_hours : float; tc_points : Z }.
Record match_entry : Type :=
  { ms_found : bool; ms_txid : option string; ms_points : Z }.

Record Breakdown : Type := {
  bd_cluster_size : size_entry;
  bd_uniformity : uniformity_entry;
  bd_round_number : round_entry;
  bd_time_clustering : time_entry;
  bd_matching_shield : match_entry
}.

Record Stats : Type := {
  st_avg_amount_zec : float;
  st_amount_std_zec : float;
  st_time_span_hours : float
}.

Record ScoreResult : Type := {
  score : Z;
  warning_level : level;
  breakdown : Breakdown;
  stats : Stats
}.

(** ** The scorer *)

(** [min(xs)] and [max(xs)] raise [ValueError] on an empty sequence. *)
Definition py_min (xs : list Z) : result Z :=
  match xs with
  | [] => Raise ValueError
  | x :: r => Ok (fold_left Z.min r x)
  end.

Definition py_max (xs : list Z) : result Z :=
  match xs with
  | [] => Raise ValueError
  | x :: r => Ok (fold_left Z.max r x)
  end.

Definition py_sum (xs : list Z) : Z := fold_left Z.add xs 0.

(** Factor 1: cluster size. *)
Definition size_points (size : Z) : Z :=
  if 12 <=? size then 30
  else if 8 <=? size then 22
  else if 5 <=? size then 15
  else 10.

(** Factor 2: the coefficient of variation and its points. *)
Definition coefficient_of_variation (amount_std avg_amount : float) : float :=
  if (0 <? avg_amount)%float then (amount_std / avg_amount)%float else 0%float.

Definition uniformity_points (cv : float) : Z :=
  if (cv <? 0.0001)%float then 15
  else if (cv <? 0.001)%float then 10
  else if (cv <? 0.01)%float then 5
  else 0.

(** Factor 3: round-number detection, with the bonus for a repeated amount
    that is not round. *)
Definition round_points (amount_zec : float) (uniformity_score : Z) : Z :=
  if (1000 <=? amount_zec)%float && (Py.float_mod amount_zec 1000 <? 0.01)%float then 20
  else if (500 <=? amount_zec)%float && (Py.float_mod amount_zec 500 <? 0.01)%float then 18
  else if (100 <=? amount_zec)%float && (Py.float_mod amount_zec 100 <? 0.01)%float then 15
  else if (50 <=? amount_zec)%float && (Py.float_mod amount_zec 50 <? 0.01)%float then 12
  else if (10 <=? amount_zec)%float && (Py.float_mod amount_zec 10 <? 0.01)%float then 10
  else if (1 <=? amount_zec)%float && (Py.float_mod amount_zec 1 <? 0.001)%float then 5
  else if 10 <=? uniformity_score then 8
  else 0.

(** Factor 4: time clustering. *)
Definition time_points (time_span_hours : float) : Z :=
  if (time_span_hours <? 6)%float then 12
  else if (time_span_hours <? 24)%float then 10
  else if (time_span_hours <? 72)%float then 6
  else if (time_span_hours <? 168)%float then 3
  else 0.

(** Factor 5: matching shield.  A fetched row is a non-empty dict, hence
    truthy: [Some] is the branch taken. *)
Definition diff_pct (total_deshielded shield_amount : Z) : float :=
  if 0 <? shield_amount
  then (Py.int_true_div (Z.abs (total_deshielded - shield_amount)) shield_amount * 100)%float
  else 100%float.

Definition match_points (amounts : list Z) (matching_shield : option Tx) : Z :=
  match matching_shield with
  | None => 0
  | Some shield =>
      let d := diff_pct (py_sum amounts) (amount_zat shield) in
      if (d <? 0.01)%float then 25
      else if (d <? 0.1)%float then 22
      else if (d <? 1)%float then 18
      else if (d <? 5)%float then 12
      else 5
  end.

Definition level_of (score : Z) : level :=
  if 70 <=? score then HIGH
  else if 50 <=? score then MEDIUM
  else LOW.

Definition score_cluster (cluster : list Tx) (matching_shield : option Tx)
  : result ScoreResult :=
  let amounts := map amount_zat cluster in
  let times := map block_time cluster in
  let avg_amount := Np.mean amounts in
  let amount_std := Np.std amounts in
  let amount_zec := (avg_amount / 1e8)%float in
  first_time ← py_min times;
  last_time ← py_max times;
  let time_span_hours := Py.int_true_div (last_time - first_time) 3600 in
  let size := Z.of_nat (length cluster) in
  let size_score := size_points size in
  let cv := coefficient_of_variation amount_std avg_amount in
  let uniformity_score := uniformity_points cv in
  let round_score := round_points amount_zec uniformity_score in
  let time_score := time_points time_span_hours in
  let match_score := match_points amounts matching_shield in
  let score :=
    Z.min (size_score + uniformity_score + round_score + time_score + match_score) 100 in
  Ok {|
    score := score;
    warning_level := level_of score;
    breakdown := {|
      bd_cluster_size := {| cs_count := size; cs_points := size_score |};
      bd_uniformity := {| un_cv := cv; un_points := uniformity_score |};
      bd_round_number := {| rn_amount_zec := amount_zec;
                            rn_is_round := 10 <=? round_score;
                            rn_points := round_score |};
      bd_time_clustering := {| tc_hours := time_span_hours; tc_points := time_score |};
      bd_matching_shield := {| ms_found := bool_decide (is_Some matching_shield);
                               ms_txid := txid <$> matching_shield;
                               ms_points := match_score |}
    |};
    stats := {|
      st_avg_amount_zec := amount_zec;
      st_amount_std_zec := (amount_std / 1e8)%float;
      st_time_span_hours := time_span_hours
    |}
  |}.

(** ** The pattern hash *)

(** [hashlib.sha256(...).hexdigest()] (FIPS 180-4) over a byte string.
    Words are 32-bit values in [Z]; additions wrap modulo 2^32. *)
Module SHA256.

Definition w32 (x : Z) : Z := x mod 2^32.
Definition rotr (n x : Z) : Z :=
  Z.lor (Z.shiftr x n) (w32 (Z.shiftl x (32 - n))).
Definition ch (x y z : Z) : Z :=
  Z.lxor (Z.land x y) (Z.land (Z.lxor x 0xffffffff) z).
Definition maj (x y z : Z) : Z :=
  Z.lxor (Z.land x y) (Z.lxor (Z.land x z) (Z.land y z)).
Definition bsig0 (x : Z) : Z := Z.lxor (rotr 2 x) (Z.lxor (rotr 13 x) (rotr 22 x)).
Definition bsig1 (x : Z) : Z := Z.lxor (rotr 6 x) (Z.lxor (rotr 11 x) (rotr 25 x)).
Definition ssig0 (x : Z) : Z := Z.lxor (rotr 7 x) (Z.lxor (rotr 18 x) (Z.shiftr x 3)).
Definition ssig1 (x : Z) : Z := Z.lxor (rotr 17 x) (Z.lxor (rotr 19 x) (Z.shiftr x 10)).

(** The round constants are the first 32 fractional bits of the cube roots
    of the first 64 primes, the initial hash value those of the square roots
    of the first 8. *)
Definition is_prime (n : Z) : bool :=
  forallb (fun d => negb (n mod d =? 0)) (map Z.of_nat (seq 2 (Z.to_nat n - 2))).

Definition primes : list Z :=
  List.filter is_prime (map Z.of_nat (seq 2 310)).

(** The integer cube root, one bit at a time from bit [bits - 1] down. *)
Fixpoint icbrt (bits : nat) (n r : Z) : Z :=
  match bits with
  | O => r
  | S b =>
      let r' := r + 2 ^ Z.of_nat b in
      icbrt b n (if r' * r' * r' <=? n then r' else r)
  end.

Definition K : list Z :=
  Eval vm_compute in map (fun p => w32 (icbrt 36 (p * 2^96) 0)) primes.

Definition H0 : list Z :=
  Eval vm_compute in map (fun p => w32 (Z.sqrt (p * 2^64))) (firstn 8 primes).

(** Big-endian bytes of [x], [n] of them. *)
Fixpoint be_bytes (n : nat) (x : Z) : list Z :=
  match n with
  | O => []
  | S n' => Z.shiftr x (8 * Z.of_nat n') mod 256 :: be_bytes n' x
  end.

Definition be_word (bs : list Z) : Z :=
  fold_left (fun acc b => acc * 256 + b) bs 0.

(** The message, a one bit, zeros up to 56 modulo 64, the bit length. *)
Definition pad (msg : list Z) : list Z :=
  let len := Z.of_nat (length msg) in
  let zeros := Z.to_nat ((55 - len) mod 64) in
  msg ++ [0x80] ++ repeat 0 zeros ++ be_bytes 8 (8 * len).

Fixpoint chunks (fuel n : nat) (bs : list Z) : list (list Z) :=
  match fuel, bs with
  | O, _ | _, [] => []
  | S fuel', _ => firstn n bs :: chunks fuel' n (skipn n bs)
  end.

Fixpoint schedule (n : nat) (w : list Z) : list Z :=
  match n with
  | O => w
  | S n' =>
      let g k := nth (length w - k) w 0 in
      schedule n' (w ++ [w32 (ssig1 (g 2%nat) + g 7%nat + ssig0 (g 15%nat) + g 16%nat)])
  end.

Definition round (st : list Z) (kw : Z * Z) : list Z :=
  match st with
  | [a; b; c; d; e; f; g; h] =>
      let t1 := w32 (h + bsig1 e + ch e f g + fst kw + snd kw) in
      let t2 := w32 (bsig0 a + maj a b c) in
      [w32 (t1 + t2); a; b; c; w32 (d + t1); e; f; g]
  | _ => st
  end.

Definition compress (h : list Z) (block : list Z) : list Z :=
  let w := schedule 48 (map be_word (chunks 16 4 block)) in
  let st := fold_left round (combine K w) h in
  map (fun p => w32 (fst p + snd p)) (combine h st).

Definition digest (msg : list Z) : list Z :=
  let padded := pad msg in
  fold_left compress (chunks (length padded) 64 padded) H0.

Definition hex_digit (d : Z) : ascii :=
  ascii_of_N (Z.to_N (if d <? 10 then 48 + d else 87 + d)).

Definition hex_word (x : Z) : list ascii :=
  flat_map (fun b => [hex_digit (b / 16); hex_digit (b mod 16)]) (be_bytes 4 x).

Definition bytes_of (s : string) : list Z :=
  map (fun c => Z.of_N (N_of_ascii c)) (list_ascii_of_string s).

Definition hexdigest (s : string) : string :=
  string_of_list_ascii (flat_map hex_word (digest (bytes_of s))).

End SHA256.

(** [sorted(txids)]: Python orders [str] by code point, which on the UTF-8
    bytes a [string] holds is the bytewise order [String.le]. *)
Definition sorted (txids : list string) : list string :=
  merge_sort String.le txids.

Definition generate_pattern_hash (txids : list string) : string :=
  let sorted_txids := String.concat "," (sorted txids) in
  SHA256.hexdigest sorted_txids.

(** ** Clustering *)

(** Modelled from the spec: scikit-learn is not part of the sources.
    [sklearn.cluster.DBSCAN(eps, min_samples, metric='euclidean').fit(X)]
    on one-dimensional samples, after scikit-learn's [dbscan_inner]: the
    neighbourhood of a sample is every sample (itself included) at distance
    at most [eps]; a sample is a core sample when its neighbourhood has at
    least [min_samples] members; clusters are grown depth-first from each
    unlabelled core sample in index order; [-1] is noise. *)
Module DBSCAN.

Definition is_finite (x : float) : bool :=
  negb (is_nan x) && negb (is_infinity x).

Definition within (eps x y : float) : bool := (abs (x - y) <=? eps)%float.

Definition neighborhood (eps : float) (X : list float) (x : float) : list nat :=
  filter (fun j => within eps x (nth j X nan) = true) (seq 0 (length X)).

Definition unlabelled (labels : list Z) (v : nat) : bool :=
  match labels !! v with
  | Some l => l =? -1
  | None => false
  end.

Definition is_core (min_samples : Z) (neighborhoods : list (list nat)) (i : nat) : bool :=
  min_samples <=? Z.of_nat (length (nth i neighborhoods [])).

(** How many samples are still unlabelled. *)
Definition noise_count (labels : list Z) : nat :=
  length (filter (fun l => l = -1) labels).

(** Pop the stack down to the first sample still unlabelled and go on with
    it by [continue]; an empty stack ends the loop with [labels]. *)
Definition pop_until (labels : list Z) (continue : nat -> list nat -> list Z)
  : list nat -> list Z :=
  fix pop (stack : list nat) : list Z :=
    match stack with
    | [] => labels
    | v :: stack' => if unlabelled labels v then continue v stack' else pop stack'
    end.

(** One run of the [while True] loop, entered at an unlabelled [i]: label
    it, push its unlabelled neighbours when it is a core sample, then pop
    until an unlabelled sample comes up.  Every call labels a new sample,
    so the number of samples is fuel enough ([dbscan_inner_fuel]). *)
Fixpoint expand (fuel : nat) (min_samples : Z) (neighborhoods : list (list nat))
    (label_num : Z) (labels : list Z) (i : nat) (stack : list nat) : list Z :=
  match fuel with
  | O => labels
  | S fuel' =>
      let labels' := <[i := label_num]> labels in
      let stack' :=
        if is_core min_samples neighborhoods i
        then rev (filter (fun v => unlabelled labels' v = true) (nth i neighborhoods [])) ++ stack
        else stack in
      pop_until labels' (expand fuel' min_samples neighborhoods label_num labels') stack'
  end.

(** The loop over the samples, with [fuel] for each depth-first search. *)
Definition dbscan_loop (fuel : nat) (min_samples : Z) (neighborhoods : list (list nat))
    (n : nat) : list Z * Z :=
  fold_left
    (fun '(labels, label_num) i =>
       if negb (unlabelled labels i) || negb (is_core min_samples neighborhoods i)
       then (labels, label_num)
       else (expand fuel min_samples neighborhoods label_num labels i [], label_num + 1))
    (seq 0 n) (replicate n (-1), 0).

Definition dbscan_inner (min_samples : Z) (neighborhoods : list (list nat)) (n : nat) : list Z :=
  fst (dbscan_loop n min_samples neighborhoods n).

(** [fit] validates its parameters, then requires a non-empty array of
    finite values, and returns [labels_]. *)
Definition fit (eps : float) (min_samples : Z) (X : list float) : result (list Z) :=
  if negb (0 <? eps)%float || is_infinity eps then Raise InvalidParameterError
  else if min_samples <? 1 then Raise InvalidParameterError
  else if bool_decide (X = []) then Raise ValueError
  else if negb (forallb is_finite X) then Raise ValueError
  else Ok (dbscan_inner min_samples (map (neighborhood eps X) X) (length X)).

End DBSCAN.

(** A [dict] from label to members, in insertion order. *)
Fixpoint dict_append (label : Z) (t : Tx) (clusters : list (Z * list Tx))
  : list (Z * list Tx) :=
  match clusters with
  | [] => [(label, [t])]
  | (l, ts) :: rest =>
      if l =? label then (l, ts ++ [t]) :: rest
      else (l, ts) :: dict_append label t rest
  end.

Definition group_by_label (labels : list Z) (deshields : list Tx) : list (Z * list Tx) :=
  fold_left
    (fun clusters '(label, t) =>
       if label =? -1 then clusters else dict_append label t clusters)
    (combine labels deshields) [].

Definition log_amounts `{Libm} (deshields : list Tx) : list float :=
  map (fun t => Np.log10 (Py.float_of_int (Np.wrap_int64 (amount_zat t + 1)))) deshields.

Definition cluster_by_amount `{Libm} (deshields : list Tx) (eps : float) (min_samples : Z)
  : result (list (Z * list Tx)) :=
  if Z.of_nat (length deshields) <? min_samples then Ok []
  else
    labels ← DBSCAN.fit eps min_samples (log_amounts deshields);
    Ok (group_by_label labels deshields).

(** ** The pattern record *)

Record ShieldInfo : Type := {
  si_txid : string;
  si_amount_zec : float;
  si_block_height : Z;
  si_block_time : Z
}.

(** The values the explanation text interpolates (the text itself, with
    its decimal formatting, is not carried). *)
Record Explanation : Type := {
  ex_count : Z;
  ex_amount_zec : float;
  ex_total_zec : float;
  ex_is_round : bool;
  ex_shield_zec : option float
}.

Record Pattern : Type := {
  pattern_type : string;
  detection_method : string;
  batch_count : Z;
  per_tx_amount_zat : Z;
  per_tx_amount_zec : float;
  total_amount_zat : Z;
  total_amount_zec : float;
  txids : list string;
  heights : list Z;
  times : list Z;
  first_time : Z;
  last_time : Z;
  time_span_hours : float;
  p_score : Z;
  p_warning_level : level;
  p_breakdown : Breakdown;
  p_stats : Stats;
  shield_txids : option (list string);
  matching_shield : option ShieldInfo;
  explanation : Explanation
}.

Definition build_pattern (cluster : list Tx) (score_result : ScoreResult)
    (shield : option Tx) : result Pattern :=
  let amounts := map amount_zat cluster in
  let times := map block_time cluster in
  let total_zat := py_sum amounts in
  avg_zat ← Py.int_of_float (Np.mean amounts);
  first ← py_min times;
  last ← py_max times;
  let amount_zec := (Py.float_of_int avg_zat / 1e8)%float in
  let total_zec := (Py.float_of_int total_zat / 1e8)%float in
  Ok {|
    pattern_type := "BATCH_DESHIELD_ML";
    detection_method := "DBSCAN_CLUSTERING";
    batch_count := Z.of_nat (length cluster);
    per_tx_amount_zat := avg_zat;
    per_tx_amount_zec := amount_zec;
    total_amount_zat := total_zat;
    total_amount_zec := total_zec;
    txids := map txid cluster;
    heights := map block_height cluster;
    times := times;
    first_time := first;
    last_time := last;
    time_span_hours := Py.int_true_div (last - first) 3600;
    p_score := score score_result;
    p_warning_level := warning_level score_result;
    p_breakdown := breakdown score_result;
    p_stats := stats score_result;
    shield_txids := (fun m => [txid m]) <$> shield;
    matching_shield :=
      (fun m => {| si_txid := txid m;
                   si_amount_zec := (Py.float_of_int (amount_zat m) / 1e8)%float;
                   si_block_height := block_height m;
                   si_block_time := block_time m |}) <$> shield;
    explanation := {|
      ex_count := Z.of_nat (length cluster);
      ex_amount_zec := amount_zec;
      ex_total_zec := total_zec;
      ex_is_round := rn_is_round (bd_round_number (breakdown score_result));
      ex_shield_zec := (fun m => (Py.float_of_int (amount_zat m) / 1e8)%float) <$> shield
    |}
  |}.

(** ** The database *)

Record Flow : Type := { flow_type : string; flow_tx : Tx }.

Record StoredPattern : Type := {
  sp_pattern_type : string;
  sp_score : Z;
  sp_warning_level : level;
  sp_shield_txids : list string;
  sp_deshield_txids : list string;
  sp_total_amount_zat : Z;
  sp_per_tx_amount_zat : Z;
  sp_batch_count : Z;
  sp_first_tx_time : Z;
  sp_last_tx_time : Z;
  sp_time_span_hours : float;
  sp_metadata : Pattern;
  sp_expires_at : Z
}.

(** A connection: the two tables the script touches, [detected_patterns]
    keyed by its unique [pattern_hash], and the server's clock. *)
Record Conn : Type := {
  shielded_flows : list Flow;
  detected_patterns : gmap string StoredPattern;
  db_now : Z
}.

(** A stable insertion sort: [before x y] says that [x], met earlier, stays
    ahead of [y].  It stands for [ORDER BY] (rows that tie keep the table's
    order) and for [list.sort]. *)
Fixpoint insert_by {A : Type} (before : A -> A -> bool) (x : A) (l : list A) : list A :=
  match l with
  | [] => [x]
  | y :: r => if before x y then x :: l else y :: insert_by before x r
  end.

Definition stable_sort {A : Type} (before : A -> A -> bool) (l : list A) : list A :=
  foldr (insert_by before) [] l.

(** Descending order of an integer key. *)
Definition key_before {A : Type} (key : A -> Z) (x y : A) : bool := key y <=? key x.

Definition is_flow (kind : string) (f : Flow) : bool :=
  bool_decide (flow_type f = kind).

(** [now] is [datetime.now()] as a Unix timestamp, and a day of the
    period is 86400 seconds. *)
Definition fetch_deshields (conn : Conn) (now period_days min_amount_zat : Z) : list Tx :=
  let min_time := now - period_days * 86400 in
  stable_sort (key_before block_time)
    (map flow_tx
       (filter (fun f => is_flow "deshield" f
                         && (min_time <? block_time (flow_tx f))
                         && (min_amount_zat <=? amount_zat (flow_tx f)) = true)
               (shielded_flows conn))).

Definition fetch_shields (conn : Conn) (total_amount_zat before_time tolerance_zat : Z)
  : list Tx :=
  let min_time := before_time - 90 * 24 * 3600 in
  let dist t := Z.abs (amount_zat t - total_amount_zat) in
  take 5
    (stable_sort
       (fun a b => (dist a <? dist b)
                   || ((dist a =? dist b) && (block_time b <=? block_time a)))
       (map flow_tx
          (filter (fun f => is_flow "shield" f
                            && (total_amount_zat - tolerance_zat <=? amount_zat (flow_tx f))
                            && (amount_zat (flow_tx f) <=? total_amount_zat + tolerance_zat)
                            && (block_time (flow_tx f) <? before_time)
                            && (min_time <? block_time (flow_tx f)) = true)
                  (shielded_flows conn)))).

(** [INSERT ... ON CONFLICT (pattern_hash) DO UPDATE]: a new hash inserts
    the row; a known one has its score, level, metadata and expiry
    overwritten.  Database errors are outside the model, so the statement
    succeeds. *)
Definition store_pattern (conn : Conn) (pattern : Pattern) (dry_run : bool) : bool * Conn :=
  if dry_run then (true, conn)
  else
    let pattern_hash := generate_pattern_hash (txids pattern) in
    let expires := db_now conn + 90 * 86400 in
    let row :=
      match detected_patterns conn !! pattern_hash with
      | Some old => {|
          sp_pattern_type := sp_pattern_type old;
          sp_score := p_score pattern;
          sp_warning_level := p_warning_level pattern;
          sp_shield_txids := sp_shield_txids old;
          sp_deshield_txids := sp_deshield_txids old;
          sp_total_amount_zat := sp_total_amount_zat old;
          sp_per_tx_amount_zat := sp_per_tx_amount_zat old;
          sp_batch_count := sp_batch_count old;
          sp_first_tx_time := sp_first_tx_time old;
          sp_last_tx_time := sp_last_tx_time old;
          sp_time_span_hours := sp_time_span_hours old;
          sp_metadata := pattern;
          sp_expires_at := expires |}
      | None => {|
          sp_pattern_type := pattern_type pattern;
          sp_score := p_score pattern;
          sp_warning_level := p_warning_level pattern;
          sp_shield_txids := default [] (shield_txids pattern);
          sp_deshield_txids := txids pattern;
          sp_total_amount_zat := total_amount_zat pattern;
          sp_per_tx_amount_zat := per_tx_amount_zat pattern;
          sp_batch_count := batch_count pattern;
          sp_first_tx_time := first_time pattern;
          sp_last_tx_time := last_time pattern;
          sp_time_span_hours := time_span_hours pattern;
          sp_metadata := pattern;
          sp_expires_at := expires |}
      end in
    (true, {| shielded_flows := shielded_flows conn;
              detected_patterns := <[pattern_hash := row]> (detected_patterns conn);
              db_now := db_now conn |}).

(** ** The detection pipeline *)

Inductive Message : Type :=
  | FetchedDeshields (n period_days : Z)
  | NotEnoughDeshields
  | FoundClusters (n : Z).

(** What a run leaves behind: the value returned or the exception raised,
    the database, and what was printed. *)
Record Run : Type := {
  returned : result (list Pattern);
  conn_after : Conn;
  printed : list Message
}.

(** The body of the loop over [clusters.items()], on the patterns found so
    far and the connection. *)
Definition visit_cluster (min_cluster_size : Z) (dry_run : bool)
    (acc : result (list Pattern) * Conn) (item : Z * list Tx)
  : result (list Pattern) * Conn :=
  match acc with
  | (Raise _, _) => acc
  | (Ok patterns, conn) =>
      let cluster := snd item in
      if Z.of_nat (length cluster) <? min_cluster_size then acc
      else
        let total_zat := py_sum (map amount_zat cluster) in
        match py_min (map block_time cluster) with
        | Raise e => (Raise e, conn)
        | Ok first =>
            let shield := head (fetch_shields conn total_zat first 1000000) in
            match score_cluster cluster shield with
            | Raise e => (Raise e, conn)
            | Ok score_result =>
                if score score_result <? 35 then acc
                else
                  match build_pattern cluster score_result shield with
                  | Raise e => (Raise e, conn)
                  | Ok pattern =>
                      (Ok (patterns ++ [pattern]),
                       if dry_run then conn else snd (store_pattern conn pattern false))
                  end
            end
        end
  end.

(** The patterns in the order the clusters are visited, before the sort. *)
Definition collect_patterns (min_cluster_size : Z) (dry_run : bool) (conn : Conn)
    (clusters : list (Z * list Tx)) : result (list Pattern) * Conn :=
  fold_left (visit_cluster min_cluster_size dry_run) clusters (Ok [], conn).

(** [patterns.sort(key=lambda p: p['score'], reverse=True)]. *)
Definition sort_by_score (patterns : list Pattern) : list Pattern :=
  stable_sort (key_before p_score) patterns.

Definition detect_patterns `{Libm} (conn : Conn) (now : Z)
    (period_days min_cluster_size : Z) (min_amount_zec eps : float)
    (dry_run verbose : bool) : Run :=
  match Py.int_of_float (min_amount_zec * 1e8)%float with
  | Raise e => {| returned := Raise e; conn_after := conn; printed := [] |}
  | Ok min_amount_zat =>
      let deshields := fetch_deshields conn now period_days min_amount_zat in
      let n := Z.of_nat (length deshields) in
      let out1 := if verbose then [FetchedDeshields n period_days] else [] in
      if n <? min_cluster_size
      then {| returned := Ok []; conn_after := conn;
              printed := out1 ++ [NotEnoughDeshields] |}
      else
        match cluster_by_amount deshields eps min_cluster_size with
        | Raise e => {| returned := Raise e; conn_after := conn; printed := out1 |}
        | Ok clusters =>
            let out2 :=
              if verbose then out1 ++ [FoundClusters (Z.of_nat (length clusters))]
              else out1 in
            let '(found, conn') := collect_patterns min_cluster_size dry_run conn clusters in
            {| returned := sort_by_score <$> found;
               conn_after := conn';
               printed := out2 |}
        end
  end.

(** ** The round-number ladder as a table

    The decision table the scorer's [if]/[elif] chain walks: denomination,
    remainder tolerance, points.  [ladder] holds the tolerances of the code;
    [ladder_percent] reads the tolerance as a share of the denomination
    (1%, and 0.1% for the unit). *)

Definition rung (d tolerance : float) (points : Z) : float * float * Z :=
  (d, tolerance, points).

Definition ladder : list (float * float * Z) :=
  [ rung 1000 0.01 20; rung 500 0.01 18; rung 100 0.01 15;
    rung 50 0.01 12; rung 10 0.01 10; rung 1 0.001 5 ].

Definition ladder_percent : list (float * float * Z) :=
  [ rung 1000 (0.01 * 1000) 20; rung 500 (0.01 * 500) 18; rung 100 (0.01 * 100) 15;
    rung 50 (0.01 * 50) 12; rung 10 (0.01 * 10) 10; rung 1 (0.001 * 1) 5 ].

Definition matches_rung (amount_zec : float) (rung : float * float * Z) : bool :=
  let '(d, tolerance, _) := rung in
  (d <=? amount_zec)%float && (Py.float_mod amount_zec d <? tolerance)%float.

Definition table_points (table : list (float * float * Z))
    (amount_zec : float) (uniformity_score : Z) : Z :=
  match List.find (matches_rung amount_zec) table with
  | Some (_, _, points) => points
  | None => if 10 <=? uniformity_score then 8 else 0
  end.

(** The span between the earliest and the latest transaction, in seconds. *)
Definition time_span_is (cluster : list Tx) (seconds : Z) : Prop :=
  exists first last,
    py_min (map block_time cluster) = Ok first
    /\ py_max (map block_time cluster) = Ok last
    /\ last - first = seconds.


(** ** A sample environment

    A [log10] for runs on concrete data: the binary logarithm by repeated
    squaring on 256-bit fixed point, 110 bits of it, times [log10 2], rounded
    once to binary64. *)
Module Reference.

Definition log10_2 : Z := 0x4d104d427de7fbcc47c4acd605be48bc13569862.

Fixpoint log2_bits (k : nat) (y f : Z) : Z :=
  match k with
  | O => f
  | S k' =>
      let y2 := Z.shiftr (y * y) 256 in
      if 2^257 <=? y2 then log2_bits k' (Z.shiftr y2 1) (2 * f + 1)
      else log2_bits k' y2 (2 * f)
  end.

Definition log10 (x : float) : float :=
  match Prim2SF x with
  | S754_finite false m e =>
      let d := Z.log2 (Zpos m) in
      let f := log2_bits 110 (Z.shiftl (Zpos m) (256 - d)) 0 in
      SF2Prim (binary_normalize prec emax (((e + d) * 2^110 + f) * log10_2) (-270) false)
  | _ => nan
  end.

Definition libm : Libm := {| libm_log10 := log10 |}.

End Reference.

Definition sample_cluster (prefix : string) (amount : Z) (offsets : list Z) : list Tx :=
  imap (fun k off =>
          {| txid := prefix +:+ String (ascii_of_nat (97 + k)) "";
             block_height := 2300000 + Z.of_nat k;
             block_time := 1700000000 + off;
             amount_zat := amount;
             pool := "orchard" |}) offsets.

(** Twelve deshields of 500 ZEC over two hours. *)
Definition scenario_a : list Tx :=
  sample_cluster "A" 50000000000
    [0; 600; 1200; 1800; 2400; 3000; 3600; 4200; 4800; 5400; 6000; 7200].

(** Eight deshields of 637.5 ZEC over twenty hours. *)
Definition scenario_b : list Tx :=
  sample_cluster "B" 63750000000 [0; 9000; 18000; 27000; 36000; 45000; 54000; 72000].

(** Eight deshields of 123.4567 ZEC over twenty hours. *)
Definition scenario_b' : list Tx :=
  sample_cluster "C" 12345670000 [100; 9100; 18100; 27100; 36100; 45100; 54100; 72100].

(** Three deshields of 1005 ZEC in one block. *)
Definition cluster_1005 : list Tx := sample_cluster "D" 100500000000 [0; 0; 0].

(** Three deshields of amount zero. *)
Definition cluster_zero : list Tx := sample_cluster "Z" 0 [0; 60; 120].

(** Two deshields of amounts met nowhere else. *)
Definition strays : list Tx :=
  [ mkTx "S1" 2300100 1700050000 777000000 "sapling";
    mkTx "S2" 2300101 1700050001 31400000000 "orchard" ].

Definition sample_db (deshields shields : list Tx) : Conn :=
  {| shielded_flows :=
       map (Build_Flow "deshield") deshields ++ map (Build_Flow "shield") shields;
     detected_patterns := ∅;
     db_now := 1700100000 |}.

(** The scenarios in one table, with a shield of 6000 ZEC ten days before
    the first deshield. *)
Definition db_scenarios : Conn :=
  sample_db (scenario_b' ++ strays ++ scenario_a ++ scenario_b)
            [ mkTx "F1" 2290000 1699136000 600000000000 "orchard" ].

(** A table of three zero-amount deshields. *)
Definition db_zero : Conn := sample_db cluster_zero [].

(** ** Where a reported pattern comes from *)

(** [reported_from conn mcs cluster p]: the loop of the pipeline turns
    [cluster] into the pattern [p]: the cluster is large enough, it is
    scored with the first shield the query returns, the score is at least
    35, and [p] is the pattern built from it. *)
Definition reported_from (conn : Conn) (min_cluster_size : Z) (cluster : list Tx)
    (p : Pattern) : Prop :=
  min_cluster_size <= Z.of_nat (length cluster)
  /\ exists first sr,
       py_min (map block_time cluster) = Ok first
       /\ score_cluster cluster
            (head (fetch_shields conn (py_sum (map amount_zat cluster)) first 1000000))
          = Ok sr
       /\ 35 <= score sr
       /\ build_pattern cluster sr
            (head (fetch_shields conn (py_sum (map amount_zat cluster)) first 1000000))
          = Ok p.

(** * Properties *)

(** ** Binary64 arithmetic on sample values *)

Example float_of_int_exact : Py.float_of_int 50000000000 = 50000000000%float.
Proof. reflexivity. Qed.

Example float_of_int_rounds : Py.float_of_int (2^53 + 1) = 9007199254740992%float.
Proof. reflexivity. Qed.

Example int_true_div_two_hours : Py.int_true_div 7200 3600 = 2%float.
Proof. reflexivity. Qed.

Example int_true_div_rounds_once :
  Py.int_true_div (2^62 + 2^9 + 1) (2^9 + 1) = 8989641361456897%float.
Proof. reflexivity. Qed.

Example float_mod_half : Py.float_mod 637.5 1 = 0.5%float.
Proof. reflexivity. Qed.

Example float_mod_neg : Py.float_mod (-1.5) 1000 = 998.5%float.
Proof. reflexivity. Qed.

Example float_mod_inexact : Py.float_mod 0.3 0.1 = 0.09999999999999998%float.
Proof. reflexivity. Qed.

Example int_of_float_trunc : Py.int_of_float (-2.75) = Ok (-2).
Proof. reflexivity. Qed.

Example log10_exact_values `{Libm} :
  map Np.log10 [1; 0; -0; -2.5; infinity; nan]%float
  = [0; neg_infinity; neg_infinity; nan; infinity; nan]%float.
Proof. reflexivity. Qed.

Example reference_log10_values :
  map Reference.log10 [1000; 2; 1e15; 50000000001]%float
  = [3; 0.3010299956639812; 15; 10.698970004344705]%float.
Proof. vm_compute. reflexivity. Qed.

(** ** Binary64 comparisons *)

Lemma SFleb_SFltb_trans (x y z : spec_float) :
  SFleb x y = true -> SFltb y z = true -> SFltb x z = true.
Proof.
  unfold SFleb, SFltb, SFcompare.
  destruct x as [sx|sx| |sx mx ex], y as [sy|sy| |sy my ey], z as [sz|sz| |sz mz ez];
    repeat match goal with s : bool |- _ => destruct s end;
    try discriminate; try reflexivity; intros Hxy Hyz.
  all: destruct (Z.compare_spec ex ey), (Z.compare_spec ey ez), (Z.compare_spec ex ez);
    try lia; try discriminate; try reflexivity; subst.
  all: rewrite ?Pos.compare_cont_spec in *; simpl in *.
  all: destruct (Pos.compare_spec mx my), (Pos.compare_spec my mz), (Pos.compare_spec mx mz);
    simpl in *; try lia; try discriminate; try reflexivity.
Qed.

Lemma float_leb_ltb_trans (a b c : float) :
  (a <=? b)%float = true -> (b <? c)%float = true -> (a <? c)%float = true.
Proof.
  rewrite FloatAxioms.leb_spec, !FloatAxioms.ltb_spec.
  apply SFleb_SFltb_trans.
Qed.

Lemma float_zero_not_positive (x : float) :
  (x =? 0)%float = true -> (0 <? x)%float = false.
Proof.
  rewrite FloatAxioms.eqb_spec, FloatAxioms.ltb_spec.
  change (Prim2SF 0) with (S754_zero false).
  destruct (Prim2SF x) as [s|s| |s m e]; try destruct s; cbv; congruence.
Qed.

(** ** The scorer: what a returned result holds *)

Ltac branches :=
  repeat match goal with
    | |- context [if ?b then _ else _] => destruct b
    end.

Lemma size_points_range (size : Z) : 10 <= size_points size <= 30.
Proof. unfold size_points. branches; lia. Qed.

Lemma uniformity_points_range (cv : float) : 0 <= uniformity_points cv <= 15.
Proof. unfold uniformity_points. branches; lia. Qed.

Lemma round_points_range (amount_zec : float) (u : Z) :
  0 <= round_points amount_zec u <= 20.
Proof. unfold round_points. branches; lia. Qed.

Lemma time_points_range (hours : float) : 0 <= time_points hours <= 12.
Proof. unfold time_points. branches; lia. Qed.

Lemma match_points_range (amounts : list Z) (shield : option Tx) :
  0 <= match_points amounts shield <= 25.
Proof. unfold match_points. destruct shield; branches; lia. Qed.

Lemma score_cluster_returns (cluster : list Tx) (shield : option Tx) :
  cluster <> [] -> exists r, score_cluster cluster shield = Ok r.
Proof.
  destruct cluster as [|t cluster]; [congruence|]. intros _.
  unfold score_cluster. simpl. eauto.
Qed.

Lemma score_cluster_raises_on_empty (shield : option Tx) :
  score_cluster [] shield = Raise ValueError.
Proof. reflexivity. Qed.

(** The fields of a returned result, in terms of the five factors. *)
Lemma score_cluster_fields (cluster : list Tx) (shield : option Tx) (r : ScoreResult) :
  score_cluster cluster shield = Ok r ->
  let amounts := map amount_zat cluster in
  let b := breakdown r in
  cs_count (bd_cluster_size b) = Z.of_nat (length cluster)
  /\ cs_points (bd_cluster_size b) = size_points (Z.of_nat (length cluster))
  /\ un_cv (bd_uniformity b) = coefficient_of_variation (Np.std amounts) (Np.mean amounts)
  /\ un_points (bd_uniformity b) = uniformity_points (un_cv (bd_uniformity b))
  /\ rn_amount_zec (bd_round_number b) = (Np.mean amounts / 1e8)%float
  /\ rn_points (bd_round_number b)
     = round_points (rn_amount_zec (bd_round_number b)) (un_points (bd_uniformity b))
  /\ rn_is_round (bd_round_number b) = (10 <=? rn_points (bd_round_number b))
  /\ (exists first last,
        py_min (map block_time cluster) = Ok first
        /\ py_max (map block_time cluster) = Ok last
        /\ tc_hours (bd_time_clustering b) = Py.int_true_div (last - first) 3600)
  /\ tc_points (bd_time_clustering b) = time_points (tc_hours (bd_time_clustering b))
  /\ ms_points (bd_matching_shield b) = match_points amounts shield
  /\ score r = Z.min (cs_points (bd_cluster_size b) + un_points (bd_uniformity b)
                      + rn_points (bd_round_number b) + tc_points (bd_time_clustering b)
                      + ms_points (bd_matching_shield b)) 100
  /\ warning_level r = level_of (score r).
Proof.
  unfold score_cluster.
  destruct (py_min (map block_time cluster)) as [first|]; [|discriminate].
  destruct (py_max (map block_time cluster)) as [last|]; [|discriminate].
  intros [= <-]. cbn. repeat split. eauto.
Qed.

(** C1. For every (non-empty) cluster and optional funding match, the scorer
    returns a result whose score lies between 0 and 100 and whose warning
    level is fixed by the score alone: HIGH from 70, MEDIUM from 50 to 69,
    LOW below 50. *)
Theorem score_cluster_bounds (cluster : list Tx) (shield : option Tx) :
  cluster <> [] ->
  exists r, score_cluster cluster shield = Ok r
    /\ 0 <= score r <= 100
    /\ (70 <= score r -> warning_level r = HIGH)
    /\ (50 <= score r < 70 -> warning_level r = MEDIUM)
    /\ (score r < 50 -> warning_level r = LOW).
Proof.
  intros Hne. destruct (score_cluster_returns cluster shield Hne) as [r Hr].
  exists r. split; [exact Hr|].
  destruct (score_cluster_fields _ _ _ Hr)
    as (_ & Hs & _ & Hu & _ & Hr' & _ & _ & Ht & Hm & Hscore & Hlevel).
  pose proof (size_points_range (Z.of_nat (length cluster))).
  pose proof (uniformity_points_range (un_cv (bd_uniformity (breakdown r)))).
  pose proof (round_points_range (rn_amount_zec (bd_round_number (breakdown r)))
                (un_points (bd_uniformity (breakdown r)))).
  pose proof (time_points_range (tc_hours (bd_time_clustering (breakdown r)))).
  pose proof (match_points_range (map amount_zat cluster) shield).
  rewrite Hlevel. unfold level_of.
  destruct (Z.leb_spec 70 (score r)), (Z.leb_spec 50 (score r));
    repeat split; intros; try lia; reflexivity.
Qed.

Lemma score_cluster_bounds_witness :
  scenario_b <> []
  /\ exists r, score_cluster scenario_b None = Ok r
       /\ 0 <= score r <= 100
       /\ (70 <= score r -> warning_level r = HIGH)
       /\ (50 <= score r < 70 -> warning_level r = MEDIUM)
       /\ (score r < 50 -> warning_level r = LOW).
Proof.
  split; [discriminate|].
  apply (score_cluster_bounds scenario_b None). discriminate.
Defined.

(** C6. The size points never decrease when the cluster grows, and the
    uniformity points never decrease when the coefficient of variation
    drops, whatever the other inputs of the two scorings are. *)
Theorem score_factors_monotone (c1 c2 : list Tx) (s1 s2 : option Tx) (r1 r2 : ScoreResult) :
  score_cluster c1 s1 = Ok r1 ->
  score_cluster c2 s2 = Ok r2 ->
  ((length c1 <= length c2)%nat ->
     cs_points (bd_cluster_size (breakdown r1)) <= cs_points (bd_cluster_size (breakdown r2)))
  /\ ((un_cv (bd_uniformity (breakdown r1)) <=? un_cv (bd_uniformity (breakdown r2)))%float = true ->
       un_points (bd_uniformity (breakdown r2)) <= un_points (bd_uniformity (breakdown r1))).
Proof.
  intros H1 H2.
  destruct (score_cluster_fields _ _ _ H1) as (_ & Hs1 & _ & Hu1 & _).
  destruct (score_cluster_fields _ _ _ H2) as (_ & Hs2 & _ & Hu2 & _).
  split.
  - intros Hle. rewrite Hs1, Hs2. unfold size_points.
    repeat match goal with
      | |- context [?a <=? ?b] => destruct (Z.leb_spec a b)
      end; lia.
  - intros Hle. rewrite Hu1, Hu2. unfold uniformity_points.
    set (cv1 := un_cv (bd_uniformity (breakdown r1))) in *.
    set (cv2 := un_cv (bd_uniformity (breakdown r2))) in *.
    pose proof (float_leb_ltb_trans cv1 cv2 0.0001 Hle) as Ha.
    pose proof (float_leb_ltb_trans cv1 cv2 0.001 Hle) as Hb.
    pose proof (float_leb_ltb_trans cv1 cv2 0.01 Hle) as Hc.
    destruct (cv2 <? 0.0001)%float; [rewrite Ha by reflexivity; lia|].
    destruct (cv2 <? 0.001)%float; [rewrite Hb by reflexivity; branches; lia|].
    destruct (cv2 <? 0.01)%float; [rewrite Hc by reflexivity; branches; lia|].
    branches; lia.
Qed.

Lemma score_factors_monotone_witness :
  exists r1 r2,
    score_cluster cluster_zero None = Ok r1
    /\ score_cluster scenario_b None = Ok r2
    /\ cs_points (bd_cluster_size (breakdown r1)) <= cs_points (bd_cluster_size (breakdown r2))
    /\ un_points (bd_uniformity (breakdown r2)) <= un_points (bd_uniformity (breakdown r1)).
Proof.
  eexists. eexists.
  split; [vm_compute; reflexivity|].
  split; [vm_compute; reflexivity|].
  edestruct (score_factors_monotone cluster_zero scenario_b None None) as [Hs Hu];
    [vm_compute; reflexivity | vm_compute; reflexivity | ].
  split; [apply Hs; simpl; lia | apply Hu; reflexivity].
Defined.

(** The size ladder along 3, 5, 8, 12. *)
Example size_points_ladder :
  map size_points [3; 5; 8; 12] = [10; 15; 22; 30].
Proof. reflexivity. Qed.

(** C10. A cluster whose mean amount is zero is scored without a division:
    the coefficient of variation is set to 0, and the uniformity factor
    awards its maximum of 15 points. *)
Theorem zero_mean_uniformity (cluster : list Tx) (shield : option Tx) :
  cluster <> [] ->
  (Np.mean (map amount_zat cluster) =? 0)%float = true ->
  exists r, score_cluster cluster shield = Ok r
    /\ un_cv (bd_uniformity (breakdown r)) = 0%float
    /\ un_points (bd_uniformity (breakdown r)) = 15.
Proof.
  intros Hne Hzero.
  destruct (score_cluster_returns cluster shield Hne) as [r Hr].
  exists r. split; [exact Hr|].
  destruct (score_cluster_fields _ _ _ Hr) as (_ & _ & Hcv & Hu & _).
  assert (un_cv (bd_uniformity (breakdown r)) = 0%float) as Hcv0.
  { rewrite Hcv. unfold coefficient_of_variation.
    now rewrite (float_zero_not_positive _ Hzero). }
  split; [exact Hcv0|]. rewrite Hu, Hcv0. reflexivity.
Qed.

Lemma zero_mean_uniformity_witness :
  cluster_zero <> []
  /\ (Np.mean (map amount_zat cluster_zero) =? 0)%float = true
  /\ exists r, score_cluster cluster_zero None = Ok r
       /\ un_cv (bd_uniformity (breakdown r)) = 0%float
       /\ un_points (bd_uniformity (breakdown r)) = 15.
Proof.
  split; [discriminate|]. split; [reflexivity|].
  apply (zero_mean_uniformity cluster_zero None); [discriminate | reflexivity].
Defined.

(** ** The round-number factor *)

Lemma round_points_table (amount_zec : float) (u : Z) :
  round_points amount_zec u = table_points ladder amount_zec u.
Proof.
  unfold round_points, table_points, ladder, rung, List.find, matches_rung.
  branches; reflexivity.
Qed.

(** C2, as the code has it. The round-number points of a scored cluster are
    those of the first rung of the ladder 1000, 500, 100, 50, 10, 1 that
    the average amount (in ZEC) matches, 20, 18, 15, 12, 10 and 5 points in
    that order, where an amount matches a denomination when it is at least
    the denomination and its remainder is below 0.01 ZEC (0.001 ZEC for the
    unit); with no rung matched, 8 points when the uniformity factor scored
    at least 10, else 0. *)
Theorem round_number_ladder (cluster : list Tx) (shield : option Tx) (r : ScoreResult) :
  score_cluster cluster shield = Ok r ->
  rn_points (bd_round_number (breakdown r))
  = table_points ladder (rn_amount_zec (bd_round_number (breakdown r)))
      (un_points (bd_uniformity (breakdown r)))
  /\ rn_amount_zec (bd_round_number (breakdown r))
     = (Np.mean (map amount_zat cluster) / 1e8)%float.
Proof.
  intros Hr.
  destruct (score_cluster_fields _ _ _ Hr) as (_ & _ & _ & _ & Ha & Hp & _).
  split; [|exact Ha]. rewrite Hp. apply round_points_table.
Qed.

Lemma round_number_ladder_witness :
  exists r, score_cluster scenario_a None = Ok r
    /\ rn_points (bd_round_number (breakdown r))
       = table_points ladder (rn_amount_zec (bd_round_number (breakdown r)))
           (un_points (bd_uniformity (breakdown r)))
    /\ rn_amount_zec (bd_round_number (breakdown r))
       = (Np.mean (map amount_zat scenario_a) / 1e8)%float.
Proof.
  eexists. split; [vm_compute; reflexivity|].
  apply (round_number_ladder scenario_a None). vm_compute; reflexivity.
Defined.

(** C2, as the claim words it, fails at 1005 ZEC: the remainder modulo 1000
    is 5, below 1% of 1000, so the claim's ladder awards 20 points; the
    scorer awards the 5 points of the unit rung. *)
Lemma round_number_percent_counterexample :
  exists r, score_cluster cluster_1005 None = Ok r
    /\ rn_amount_zec (bd_round_number (breakdown r)) = 1005%float
    /\ rn_points (bd_round_number (breakdown r)) = 5
    /\ table_points ladder_percent (rn_amount_zec (bd_round_number (breakdown r)))
         (un_points (bd_uniformity (breakdown r))) = 20.
Proof.
  eexists. split; [vm_compute; reflexivity|].
  repeat split; vm_compute; reflexivity.
Qed.

(** ** The scenarios *)

Lemma amounts_of_uniform (a : Z) (cluster : list Tx) :
  Forall (fun t => amount_zat t = a) cluster ->
  map amount_zat cluster = repeat a (length cluster).
Proof. induction 1 as [|t l Ht _ IH]; simpl; [reflexivity|]. now rewrite Ht, IH. Qed.

(** The points of a cluster of equal amounts [a] spanning [seconds]. *)
Lemma score_cluster_uniform (cluster : list Tx) (shield : option Tx) (a seconds : Z)
    (r : ScoreResult) :
  score_cluster cluster shield = Ok r ->
  Forall (fun t => amount_zat t = a) cluster ->
  time_span_is cluster seconds ->
  let amounts := repeat a (length cluster) in
  let u := uniformity_points (coefficient_of_variation (Np.std amounts) (Np.mean amounts)) in
  let p := size_points (Z.of_nat (length cluster)) + u
           + round_points (Np.mean amounts / 1e8) u
           + time_points (Py.int_true_div seconds 3600)
           + match_points amounts shield in
  cs_points (bd_cluster_size (breakdown r)) = size_points (Z.of_nat (length cluster))
  /\ un_points (bd_uniformity (breakdown r)) = u
  /\ rn_points (bd_round_number (breakdown r)) = round_points (Np.mean amounts / 1e8) u
  /\ tc_points (bd_time_clustering (breakdown r)) = time_points (Py.int_true_div seconds 3600)
  /\ ms_points (bd_matching_shield (breakdown r)) = match_points amounts shield
  /\ score r = Z.min p 100
  /\ warning_level r = level_of (Z.min p 100).
Proof.
  intros Hr Hall (first & last & Hmin & Hmax & Hd).
  destruct (score_cluster_fields _ _ _ Hr)
    as (_ & Hs & Hcv & Hu & Ha & Hrp & _ & (f' & l' & Hmin' & Hmax' & Hh)
        & Ht & Hm & Hscore & Hlevel).
  rewrite Hmin in Hmin'. rewrite Hmax in Hmax'.
  injection Hmin' as <-. injection Hmax' as <-.
  rewrite Hd in Hh. rewrite (amounts_of_uniform _ _ Hall) in *.
  cbv zeta.
  rewrite Hlevel, Hscore, Hm, Ht, Hh, Hrp, Ha, Hu, Hcv, Hs.
  repeat split.
Qed.

Ltac score_uniform Hlen Hall Hspan :=
  match goal with
  | |- exists _, score_cluster ?c ?s = _ /\ _ =>
      let r := fresh "r" in
      let Hr := fresh "Hr" in
      destruct (score_cluster_returns c s) as [r Hr];
      [ intros ->; discriminate Hlen | ];
      exists r; split; [exact Hr|];
      pose proof (score_cluster_uniform _ _ _ _ _ Hr Hall Hspan) as Hpoints;
      cbv zeta in Hpoints; rewrite Hlen in Hpoints;
      destruct Hpoints as (-> & -> & -> & -> & -> & -> & ->);
      vm_compute; repeat split
  end.

(** C3, as the code has it. Twelve deshields of 500 ZEC each within two
    hours and no matching shield score 30 for size, 15 for uniformity, 18
    for the round number (500 is the second rung), 12 for time and 0 for
    the match: 75 in all, HIGH. *)
Theorem scenario_a_score (cluster : list Tx) :
  length cluster = 12%nat ->
  Forall (fun t => amount_zat t = 500 * 10^8) cluster ->
  time_span_is cluster (2 * 3600) ->
  exists r, score_cluster cluster None = Ok r
    /\ cs_points (bd_cluster_size (breakdown r)) = 30
    /\ un_points (bd_uniformity (breakdown r)) = 15
    /\ rn_points (bd_round_number (breakdown r)) = 18
    /\ tc_points (bd_time_clustering (breakdown r)) = 12
    /\ ms_points (bd_matching_shield (breakdown r)) = 0
    /\ score r = 75
    /\ warning_level r = HIGH.
Proof. intros Hlen Hall Hspan. score_uniform Hlen Hall Hspan. Qed.

Lemma scenario_a_premises :
  length scenario_a = 12%nat
  /\ Forall (fun t => amount_zat t = 500 * 10^8) scenario_a
  /\ time_span_is scenario_a (2 * 3600).
Proof.
  split; [reflexivity|]. split; [repeat constructor|].
  exists 1700000000, 1700007200. repeat split.
Qed.

Lemma scenario_a_score_witness :
  exists r, score_cluster scenario_a None = Ok r
    /\ cs_points (bd_cluster_size (breakdown r)) = 30
    /\ un_points (bd_uniformity (breakdown r)) = 15
    /\ rn_points (bd_round_number (breakdown r)) = 18
    /\ tc_points (bd_time_clustering (breakdown r)) = 12
    /\ ms_points (bd_matching_shield (breakdown r)) = 0
    /\ score r = 75
    /\ warning_level r = HIGH.
Proof.
  destruct scenario_a_premises as (Hlen & Hall & Hspan).
  exact (scenario_a_score scenario_a Hlen Hall Hspan).
Defined.

(** C3, as the claim words it, fails on twelve such deshields: the round
    number earns 18 points, not 20, and the score is 75, not 77. *)
Lemma scenario_a_counterexample :
  length scenario_a = 12%nat
  /\ Forall (fun t => amount_zat t = 500 * 10^8) scenario_a
  /\ time_span_is scenario_a (2 * 3600)
  /\ exists r, score_cluster scenario_a None = Ok r
       /\ rn_points (bd_round_number (breakdown r)) = 18
       /\ rn_points (bd_round_number (breakdown r)) <> 20
       /\ score r = 75
       /\ score r <> 77.
Proof.
  split; [reflexivity|]. split; [repeat constructor|].
  split; [exists 1700000000, 1700007200; repeat split|].
  eexists. split; [vm_compute; reflexivity|].
  repeat split; discriminate.
Qed.

(** C4. Eight deshields of 637.5 ZEC each within twenty hours and no
    matching shield score 22 for size, 15 for uniformity, 8 for the round
    number (the bonus for an identical amount that is not round), 10 for
    time and 0 for the match: 55 in all, MEDIUM. *)
Theorem scenario_b_score (cluster : list Tx) :
  length cluster = 8%nat ->
  Forall (fun t => amount_zat t = 6375 * 10^7) cluster ->
  time_span_is cluster (20 * 3600) ->
  exists r, score_cluster cluster None = Ok r
    /\ cs_points (bd_cluster_size (breakdown r)) = 22
    /\ un_points (bd_uniformity (breakdown r)) = 15
    /\ rn_points (bd_round_number (breakdown r)) = 8
    /\ tc_points (bd_time_clustering (breakdown r)) = 10
    /\ ms_points (bd_matching_shield (breakdown r)) = 0
    /\ score r = 55
    /\ warning_level r = MEDIUM.
Proof. intros Hlen Hall Hspan. score_uniform Hlen Hall Hspan. Qed.

Lemma scenario_b_premises :
  length scenario_b = 8%nat
  /\ Forall (fun t => amount_zat t = 6375 * 10^7) scenario_b
  /\ time_span_is scenario_b (20 * 3600).
Proof.
  split; [reflexivity|]. split; [repeat constructor|].
  exists 1700000000, 1700072000. repeat split.
Qed.

Lemma scenario_b_score_witness :
  exists r, score_cluster scenario_b None = Ok r
    /\ cs_points (bd_cluster_size (breakdown r)) = 22
    /\ un_points (bd_uniformity (breakdown r)) = 15
    /\ rn_points (bd_round_number (breakdown r)) = 8
    /\ tc_points (bd_time_clustering (breakdown r)) = 10
    /\ ms_points (bd_matching_shield (breakdown r)) = 0
    /\ score r = 55
    /\ warning_level r = MEDIUM.
Proof.
  destruct scenario_b_premises as (Hlen & Hall & Hspan).
  exact (scenario_b_score scenario_b Hlen Hall Hspan).
Defined.

(** ** The pattern hash *)

Lemma sorted_is_sorted (txids : list string) : Sorted String.le (sorted txids).
Proof. apply Sorted_merge_sort, _. Qed.

Lemma sorted_permutation (txids : list string) : sorted txids ≡ₚ txids.
Proof. apply merge_sort_Permutation. Qed.

Lemma sorted_canonical (l l' : list string) : l ≡ₚ l' -> sorted l = sorted l'.
Proof.
  intros Hp. apply (Sorted_unique String.le); try apply sorted_is_sorted.
  now rewrite !sorted_permutation.
Qed.

(** C5. The pattern hash does not depend on the order of the transaction
    ids: any permutation of a list hashes to the same digest, because the
    digest is taken over the sorted copy. *)
Theorem generate_pattern_hash_permutation (l l' : list string) :
  l ≡ₚ l' -> generate_pattern_hash l = generate_pattern_hash l'.
Proof.
  intros Hp. unfold generate_pattern_hash. now rewrite (sorted_canonical l l' Hp).
Qed.

Lemma generate_pattern_hash_permutation_witness :
  ["c3"; "a1"; "b2"] ≡ₚ ["a1"; "b2"; "c3"]
  /\ generate_pattern_hash ["c3"; "a1"; "b2"] = generate_pattern_hash ["a1"; "b2"; "c3"].
Proof.
  assert (["c3"; "a1"; "b2"] ≡ₚ ["a1"; "b2"; "c3"]) as Hp.
  { change (["c3"] ++ ["a1"; "b2"] ≡ₚ ["a1"; "b2"] ++ ["c3"]). apply Permutation_app_comm. }
  split; [exact Hp|]. exact (generate_pattern_hash_permutation _ _ Hp).
Defined.

Example sha256_abc :
  SHA256.hexdigest "abc"
  = "ba7816bf8f01cfea414140de5dae2223b00361a396177a9cb410ff61f20015ad".
Proof. vm_compute. reflexivity. Qed.

Example sha256_empty :
  SHA256.hexdigest ""
  = "e3b0c44298fc1c149afbf4c8996fb92427ae41e4649b934ca495991b7852b855".
Proof. vm_compute. reflexivity. Qed.

Example sha256_two_blocks :
  SHA256.hexdigest "abcdbcdecdefdefgefghfghighijhijkijkljklmklmnlmnomnopnopq"
  = "248d6a61d20638b8e5c026930c3e6039a33ce45964ff2167f6ecedd419db06c1".
Proof. vm_compute. reflexivity. Qed.

Example generate_pattern_hash_sorts :
  generate_pattern_hash ["b"; "a"; "c"] = SHA256.hexdigest "a,b,c".
Proof. vm_compute. reflexivity. Qed.

(** ** The clusterer *)

(** *** The fuel of the depth-first search *)

Lemma unlabelled_lookup (labels : list Z) (v : nat) :
  DBSCAN.unlabelled labels v = true <-> labels !! v = Some (-1).
Proof.
  unfold DBSCAN.unlabelled. destruct (labels !! v) as [l|]; [|split; discriminate].
  destruct (Z.eqb_spec l (-1)) as [->|Hne]; split; congruence.
Qed.

Lemma noise_count_insert (labels : list Z) (i : nat) (l : Z) :
  labels !! i = Some (-1) -> l <> -1 ->
  S (DBSCAN.noise_count (<[i := l]> labels)) = DBSCAN.noise_count labels.
Proof.
  unfold DBSCAN.noise_count. revert i. induction labels as [|x labels IH]; intros [|i] Hi Hl; simpl in *;
    try discriminate.
  - injection Hi as ->. rewrite !filter_cons.
    repeat case_decide; try congruence. reflexivity.
  - rewrite !filter_cons. case_decide; simpl; rewrite (IH i Hi Hl); reflexivity.
Qed.

Lemma expand_enough (min_samples : Z) (neighborhoods : list (list nat)) (label_num : Z) :
  label_num <> -1 ->
  forall (f1 f2 : nat) (labels : list Z) (i : nat) (stack : list nat),
  DBSCAN.unlabelled labels i = true ->
  (DBSCAN.noise_count labels <= f1)%nat ->
  (DBSCAN.noise_count labels <= f2)%nat ->
  DBSCAN.expand f1 min_samples neighborhoods label_num labels i stack
  = DBSCAN.expand f2 min_samples neighborhoods label_num labels i stack.
Proof.
  intros Hl. induction f1 as [|f1 IH]; intros f2 labels i stack Hi H1 H2.
  - apply unlabelled_lookup in Hi.
    pose proof (noise_count_insert labels i label_num Hi Hl). lia.
  - destruct f2 as [|f2].
    + apply unlabelled_lookup in Hi.
      pose proof (noise_count_insert labels i label_num Hi Hl). lia.
    + cbn [DBSCAN.expand].
      set (labels' := <[i := label_num]> labels).
      assert (S (DBSCAN.noise_count labels') = DBSCAN.noise_count labels) as Hcount.
      { apply noise_count_insert; [now apply unlabelled_lookup | exact Hl]. }
      generalize (if DBSCAN.is_core min_samples neighborhoods i
                  then rev (filter (fun v => DBSCAN.unlabelled labels' v = true)
                              (nth i neighborhoods [])) ++ stack
                  else stack).
      intros st. induction st as [|v st IHst]; simpl; [reflexivity|].
      destruct (DBSCAN.unlabelled labels' v) eqn:Hv; [|exact IHst].
      apply IH; [exact Hv | lia | lia].
Qed.

Lemma expand_length (min_samples : Z) (neighborhoods : list (list nat)) (label_num : Z)
    (fuel : nat) :
  forall (labels : list Z) (i : nat) (stack : list nat),
  length (DBSCAN.expand fuel min_samples neighborhoods label_num labels i stack)
  = length labels.
Proof.
  induction fuel as [|fuel IH]; intros labels i stack; [reflexivity|].
  cbn [DBSCAN.expand].
  set (labels' := <[i := label_num]> labels).
  assert (length labels' = length labels) as Hlen by apply length_insert.
  generalize (if DBSCAN.is_core min_samples neighborhoods i
              then rev (filter (fun v => DBSCAN.unlabelled labels' v = true)
                          (nth i neighborhoods [])) ++ stack
              else stack).
  intros st. induction st as [|v st IHst]; simpl; [exact Hlen|].
  destruct (DBSCAN.unlabelled labels' v); [now rewrite IH | exact IHst].
Qed.

Lemma dbscan_fold_fuel (fuel n : nat) (min_samples : Z) (neighborhoods : list (list nat))
    (indices : list nat) :
  (n <= fuel)%nat ->
  forall (labels : list Z) (label_num : Z),
  length labels = n -> 0 <= label_num ->
  fold_left
    (fun '(labels, label_num) i =>
       if negb (DBSCAN.unlabelled labels i) || negb (DBSCAN.is_core min_samples neighborhoods i)
       then (labels, label_num)
       else (DBSCAN.expand fuel min_samples neighborhoods label_num labels i [], label_num + 1))
    indices (labels, label_num)
  = fold_left
      (fun '(labels, label_num) i =>
         if negb (DBSCAN.unlabelled labels i) || negb (DBSCAN.is_core min_samples neighborhoods i)
         then (labels, label_num)
         else (DBSCAN.expand n min_samples neighborhoods label_num labels i [], label_num + 1))
      indices (labels, label_num).
Proof.
  intros Hfuel.
  induction indices as [|i indices IH]; intros labels label_num Hlen Hnum;
    cbn [fold_left]; [reflexivity|].
  destruct (negb (DBSCAN.unlabelled labels i)
            || negb (DBSCAN.is_core min_samples neighborhoods i)) eqn:Hskip.
  - now apply IH.
  - apply orb_false_elim in Hskip as [Hi _]. apply negb_false_iff in Hi.
    pose proof (length_filter (fun x => x = -1) labels) as Hcount.
    fold (DBSCAN.noise_count labels) in Hcount.
    rewrite (expand_enough min_samples neighborhoods label_num ltac:(lia)
               fuel n labels i [] Hi ltac:(lia) ltac:(lia)).
    apply IH; [now rewrite expand_length | lia].
Qed.

(** The number of samples is fuel enough: more changes nothing. *)
Lemma dbscan_inner_fuel (fuel : nat) (min_samples : Z) (neighborhoods : list (list nat))
    (n : nat) :
  (n <= fuel)%nat ->
  DBSCAN.dbscan_loop fuel min_samples neighborhoods n
  = DBSCAN.dbscan_loop n min_samples neighborhoods n.
Proof.
  intros Hfuel. unfold DBSCAN.dbscan_loop.
  apply dbscan_fold_fuel; [exact Hfuel | apply length_replicate | lia].
Qed.

(** C7. With fewer transactions than [min_samples] the clusterer returns
    the empty mapping. *)
Theorem cluster_by_amount_too_few `{Libm} (deshields : list Tx) (eps : float) (min_samples : Z) :
  Z.of_nat (length deshields) < min_samples ->
  cluster_by_amount deshields eps min_samples = Ok [].
Proof.
  intros Hlt. unfold cluster_by_amount.
  destruct (Z.ltb_spec (Z.of_nat (length deshields)) min_samples); [reflexivity | lia].
Qed.

Lemma cluster_by_amount_too_few_witness :
  Z.of_nat (length strays) < 3
  /\ forall L : Libm, @cluster_by_amount L strays 0.0001 3 = Ok [].
Proof.
  split; [reflexivity|].
  intros L. apply (@cluster_by_amount_too_few L strays). reflexivity.
Defined.

(** *** Membership in the returned mapping *)







(** A negative amount is not excluded either: its logarithm is not a
    number, DBSCAN rejects the array, and the run ends with [ValueError]. *)
Example negative_amount_aborts :
  forall L : Libm,
    returned (@detect_patterns L
                (sample_db (mkTx "N" 2300000 1700000000 (-5) "orchard" :: cluster_zero) [])
                1700100000 30 3 (-1) 0.0001 true false)
    = Raise ValueError.
Proof. intros L. vm_compute. reflexivity. Qed.

(** ** Stable sorting *)

Section StableSort.
Context {A : Type} (key : A -> Z).

Local Abbreviation before := (key_before key).
Local Abbreviation ahead := (fun x y => key y <= key x).

Lemma insert_by_permutation (x : A) (l : list A) :
  insert_by before x l ≡ₚ x :: l.
Proof.
  induction l as [|y r IH]; simpl; [reflexivity|].
  destruct (before x y); [reflexivity|].
  rewrite IH. apply Permutation_swap.
Qed.

Lemma stable_sort_permutation (l : list A) : stable_sort before l ≡ₚ l.
Proof.
  induction l as [|x l IH]; simpl; [reflexivity|].
  now rewrite insert_by_permutation, IH.
Qed.

Lemma insert_by_sorted (x : A) (l : list A) :
  StronglySorted ahead l -> StronglySorted ahead (insert_by before x l).
Proof.
  induction 1 as [|y r Hr IH Hy]; simpl.
  - repeat constructor.
  - unfold key_before at 1. destruct (Z.leb_spec (key y) (key x)) as [Hle|Hgt].
    + constructor; [now constructor|].
      constructor; [exact Hle|].
      eapply Forall_impl; [exact Hy|]. cbn. intros z Hz. lia.
    + constructor; [exact IH|].
      rewrite insert_by_permutation. constructor; [lia | exact Hy].
Qed.

Lemma stable_sort_sorted (l : list A) : StronglySorted ahead (stable_sort before l).
Proof.
  induction l as [|x l IH]; simpl; [constructor | now apply insert_by_sorted].
Qed.

Lemma insert_by_stable (s : Z) (x : A) (l : list A) :
  filter (fun y => key y = s) (insert_by before x l)
  = filter (fun y => key y = s) (x :: l).
Proof.
  induction l as [|y r IH]; simpl; [reflexivity|].
  unfold key_before at 1. destruct (Z.leb_spec (key y) (key x)) as [Hle|Hgt]; [reflexivity|].
  rewrite !filter_cons, IH, !filter_cons.
  repeat case_decide; try reflexivity; lia.
Qed.

(** Elements of equal key leave the sort in the order they entered it. *)
Lemma stable_sort_stable (s : Z) (l : list A) :
  filter (fun y => key y = s) (stable_sort before l) = filter (fun y => key y = s) l.
Proof.
  induction l as [|x l IH]; simpl; [reflexivity|].
  now rewrite insert_by_stable, !filter_cons, IH.
Qed.

End StableSort.

(** ** The pipeline *)

Lemma build_pattern_fields (cluster : list Tx) (sr : ScoreResult) (shield : option Tx)
    (p : Pattern) :
  build_pattern cluster sr shield = Ok p ->
  p_score p = score sr /\ txids p = map txid cluster.
Proof.
  unfold build_pattern.
  destruct (Py.int_of_float _); [|discriminate].
  destruct (py_min _); [|discriminate].
  destruct (py_max _); [|discriminate].
  intros [= <-]. split; reflexivity.
Qed.

(** One visit either leaves the patterns as they are or appends the pattern
    of the visited cluster, whose score is at least 35. *)
Lemma visit_cluster_Ok (mcs : Z) (dry : bool) (ps ps' : list Pattern) (conn conn' : Conn)
    (item : Z * list Tx) :
  visit_cluster mcs dry (Ok ps, conn) item = (Ok ps', conn') ->
  ps' = ps
  \/ exists p, ps' = ps ++ [p] /\ 35 <= p_score p /\ txids p = map txid (snd item).
Proof.
  unfold visit_cluster.
  destruct (Z.of_nat (length (snd item)) <? mcs); [intros [= <- <-]; now left|].
  destruct (py_min _) as [first|]; [|discriminate].
  destruct (score_cluster _ _) as [sr|]; [|discriminate].
  destruct (Z.ltb_spec (score sr) 35) as [Hlt|Hge]; [intros [= <- <-]; now left|].
  destruct (build_pattern _ _ _) as [p|] eqn:Hp; [|discriminate].
  intros [= <- <-]. right. exists p.
  destruct (build_pattern_fields _ _ _ _ Hp) as [Hs Ht].
  split; [reflexivity|]. split; [lia | exact Ht].
Qed.

Lemma visit_cluster_Raise (mcs : Z) (dry : bool) (e : exn) (conn : Conn)
    (clusters : list (Z * list Tx)) :
  fold_left (visit_cluster mcs dry) clusters (Raise e, conn) = (Raise e, conn).
Proof. induction clusters as [|c cs IH]; simpl; [reflexivity | exact IH]. Qed.

(** The patterns a loop adds: each scores at least 35, and they follow the
    clusters in the order of the mapping. *)
Lemma collect_from (mcs : Z) (dry : bool) (clusters : list (Z * list Tx)) :
  forall (ps found : list Pattern) (conn conn' : Conn),
  fold_left (visit_cluster mcs dry) clusters (Ok ps, conn) = (Ok found, conn') ->
  exists new, found = ps ++ new
    /\ Forall (fun p => 35 <= p_score p) new
    /\ map txids new `sublist_of` map (fun c => map txid (snd c)) clusters.
Proof.
  induction clusters as [|c cs IH]; cbn [fold_left]; intros ps found conn conn' Hf.
  - injection Hf as <- <-. exists []. rewrite app_nil_r. repeat split; constructor.
  - destruct (visit_cluster mcs dry (Ok ps, conn) c) as [[ps1|e] conn1] eqn:Hv.
    + destruct (IH _ _ _ _ Hf) as (new & -> & Hall & Hsub).
      destruct (visit_cluster_Ok _ _ _ _ _ _ _ Hv) as [->|(p & -> & Hp & Ht)].
      * exists new. repeat split; [exact Hall|]. now apply sublist_cons.
      * exists (p :: new). rewrite <- app_assoc. repeat split.
        -- now constructor.
        -- simpl. rewrite Ht. now apply sublist_skip.
    + rewrite visit_cluster_Raise in Hf. discriminate.
Qed.

(** C8. Whenever a run returns patterns, each of them scores at least 35,
    the list is in descending order of score, and it is a stable
    rearrangement of the patterns in the order their clusters were
    discovered: patterns of equal score keep that order. *)
Theorem detect_patterns_filtered_sorted `{Libm} (conn : Conn) (now : Z)
    (period_days min_cluster_size : Z) (min_amount_zec eps : float)
    (dry_run verbose : bool) (patterns : list Pattern) :
  returned (detect_patterns conn now period_days min_cluster_size min_amount_zec eps
              dry_run verbose) = Ok patterns ->
  Forall (fun p => 35 <= p_score p) patterns
  /\ StronglySorted (fun p q => p_score q <= p_score p) patterns
  /\ exists found : list Pattern,
       patterns ≡ₚ found
       /\ (forall s, filter (fun p => p_score p = s) patterns
                     = filter (fun p => p_score p = s) found)
       /\ (found = []
           \/ exists (min_amount_zat : Z) (clusters : list (Z * list Tx)) (conn' : Conn),
                Py.int_of_float (min_amount_zec * 1e8) = Ok min_amount_zat
                /\ cluster_by_amount
                     (fetch_deshields conn now period_days min_amount_zat) eps min_cluster_size
                   = Ok clusters
                /\ collect_patterns min_cluster_size dry_run conn clusters = (Ok found, conn')
                /\ map txids found `sublist_of` map (fun c => map txid (snd c)) clusters).
Proof.
  unfold detect_patterns.
  destruct (Py.int_of_float _) as [min_amount_zat|] eqn:Hmin; [|discriminate].
  destruct (_ <? min_cluster_size).
  { intros [= <-]. split; [constructor|]. split; [constructor|].
    exists []. split; [reflexivity|]. split; [reflexivity | now left]. }
  destruct (cluster_by_amount _ _ _) as [clusters|] eqn:Hcl; [|discriminate].
  destruct (collect_patterns _ _ _ _) as [[found|e] conn'] eqn:Hc; [|discriminate].
  cbn. intros [= <-].
  destruct (collect_from _ _ _ _ _ _ _ Hc) as (new & Hnew & Hall & Hsub).
  simpl in Hnew. subst new. unfold sort_by_score.
  split; [now rewrite stable_sort_permutation|].
  split; [apply (stable_sort_sorted p_score)|].
  exists found.
  split; [apply (stable_sort_permutation p_score)|].
  split; [intros s; apply (stable_sort_stable p_score)|].
  right. exists min_amount_zat, clusters, conn'. repeat split; assumption.
Qed.

Lemma detect_patterns_filtered_sorted_witness :
  exists patterns,
    returned (@detect_patterns Reference.libm db_scenarios 1700100000 30 3 1 0.0001
                true false) = Ok patterns
    /\ map p_score patterns = [100; 55; 55]
    /\ Forall (fun p => 35 <= p_score p) patterns
    /\ StronglySorted (fun p q => p_score q <= p_score p) patterns.
Proof.
  eexists. split; [vm_compute; reflexivity|].
  split; [vm_compute; reflexivity|].
  edestruct (@detect_patterns_filtered_sorted Reference.libm db_scenarios 1700100000 30 3
               1%float 0.0001%float true false) as (Hall & Hsorted & _);
    [vm_compute; reflexivity|].
  split; [exact Hall | exact Hsorted].
Defined.

(** The two patterns of score 55 come out in the order their clusters were
    discovered; the pattern of score 100, discovered last, moves to the
    front. *)
Example detect_patterns_sample_run :
  let run := @detect_patterns Reference.libm db_scenarios 1700100000 30 3 1 0.0001
               false true in
  (fun ps => map (fun p => (p_score p, head (txids p), shield_txids p)) ps) <$> returned run
  = Ok [(100, Some "Al", Some ["F1"]); (55, Some "Ch", None); (55, Some "Bh", None)]
  /\ (fun cs => map (fun c => head (map txid (snd c))) cs)
       <$> @cluster_by_amount Reference.libm
             (fetch_deshields db_scenarios 1700100000 30 100000000) 0.0001 3
     = Ok [Some "Ch"; Some "Bh"; Some "Al"]
  /\ printed run = [FetchedDeshields 30 30; FoundClusters 3]
  /\ size (detected_patterns (conn_after run)) = 3%nat.
Proof. vm_compute. repeat split. Qed.

(** * Further properties of the code *)

(** ** The scorer *)

(** X1. The scorer raises only on an empty cluster, and then [ValueError]
    (from [min] of no timestamps); every other cluster is scored. *)
Theorem score_cluster_raises_iff_empty (cluster : list Tx) (shield : option Tx) :
  match score_cluster cluster shield with
  | Ok _ => cluster <> []
  | Raise e => e = ValueError /\ cluster = []
  end.
Proof.
  destruct cluster as [|t cluster]; [now split|].
  unfold score_cluster. simpl. discriminate.
Qed.

(** X2. Without a matching shield the match factor is 0, the score is the
    plain sum of the other four factors, and it lies between 10 and 77: the
    cap at 100 can only bite when a shield is matched. *)
Theorem score_without_shield (cluster : list Tx) (r : ScoreResult) :
  score_cluster cluster None = Ok r ->
  let b := breakdown r in
  ms_found (bd_matching_shield b) = false
  /\ ms_txid (bd_matching_shield b) = None
  /\ ms_points (bd_matching_shield b) = 0
  /\ score r = cs_points (bd_cluster_size b) + un_points (bd_uniformity b)
               + rn_points (bd_round_number b) + tc_points (bd_time_clustering b)
  /\ 10 <= score r <= 77.
Proof.
  intros Hr.
  destruct (score_cluster_fields _ _ _ Hr)
    as (_ & Hs & _ & Hu & _ & Hrp & _ & _ & Ht & Hm & Hscore & _).
  pose proof (size_points_range (Z.of_nat (length cluster))).
  pose proof (uniformity_points_range (un_cv (bd_uniformity (breakdown r)))).
  pose proof (round_points_range (rn_amount_zec (bd_round_number (breakdown r)))
                (un_points (bd_uniformity (breakdown r)))).
  pose proof (time_points_range (tc_hours (bd_time_clustering (breakdown r)))).
  cbn zeta. simpl in Hm.
  assert (ms_found (bd_matching_shield (breakdown r)) = false
          /\ ms_txid (bd_matching_shield (breakdown r)) = None) as [Hf Hid].
  { revert Hr. unfold score_cluster.
    destruct (py_min _); [|discriminate]. destruct (py_max _); [|discriminate].
    intros [= <-]. split; reflexivity. }
  repeat split; try assumption; lia.
Qed.

Lemma score_without_shield_witness :
  exists r, score_cluster scenario_b None = Ok r
    /\ ms_found (bd_matching_shield (breakdown r)) = false
    /\ ms_txid (bd_matching_shield (breakdown r)) = None
    /\ ms_points (bd_matching_shield (breakdown r)) = 0
    /\ score r = cs_points (bd_cluster_size (breakdown r))
                 + un_points (bd_uniformity (breakdown r))
                 + rn_points (bd_round_number (breakdown r))
                 + tc_points (bd_time_clustering (breakdown r))
    /\ 10 <= score r <= 77.
Proof.
  eexists. split; [vm_compute; reflexivity|].
  apply (score_without_shield scenario_b). vm_compute; reflexivity.
Defined.

Lemma match_points_some_range (amounts : list Z) (shield : Tx) :
  5 <= match_points amounts (Some shield) <= 25.
Proof. unfold match_points. branches; lia. Qed.

(** X3. Matching a shield always raises a cluster's score: the four other
    factors are the same with and without it, and the match adds at least
    5 points to a sum that was at most 77. *)
Theorem shield_raises_score (cluster : list Tx) (shield : Tx) (r0 r1 : ScoreResult) :
  score_cluster cluster None = Ok r0 ->
  score_cluster cluster (Some shield) = Ok r1 ->
  cs_points (bd_cluster_size (breakdown r1)) = cs_points (bd_cluster_size (breakdown r0))
  /\ un_points (bd_uniformity (breakdown r1)) = un_points (bd_uniformity (breakdown r0))
  /\ rn_points (bd_round_number (breakdown r1)) = rn_points (bd_round_number (breakdown r0))
  /\ tc_points (bd_time_clustering (breakdown r1)) = tc_points (bd_time_clustering (breakdown r0))
  /\ 5 <= ms_points (bd_matching_shield (breakdown r1))
  /\ score r0 < score r1 <= 100.
Proof.
  intros H0 H1.
  destruct (score_cluster_fields _ _ _ H0)
    as (_ & Hs0 & Hcv0 & Hu0 & Ha0 & Hr0 & _ & (f0 & l0 & Hmin0 & Hmax0 & Hh0)
        & Ht0 & Hm0 & Hscore0 & _).
  destruct (score_cluster_fields _ _ _ H1)
    as (_ & Hs1 & Hcv1 & Hu1 & Ha1 & Hr1 & _ & (f1 & l1 & Hmin1 & Hmax1 & Hh1)
        & Ht1 & Hm1 & Hscore1 & _).
  rewrite Hmin0 in Hmin1. rewrite Hmax0 in Hmax1.
  injection Hmin1 as <-. injection Hmax1 as <-.
  assert (Hu : un_points (bd_uniformity (breakdown r1))
               = un_points (bd_uniformity (breakdown r0))) by congruence.
  assert (Hr : rn_points (bd_round_number (breakdown r1))
               = rn_points (bd_round_number (breakdown r0))) by congruence.
  assert (Ht : tc_points (bd_time_clustering (breakdown r1))
               = tc_points (bd_time_clustering (breakdown r0))) by congruence.
  pose proof (match_points_some_range (map amount_zat cluster) shield) as Hm.
  rewrite <- Hm1 in Hm. simpl in Hm0.
  pose proof (size_points_range (Z.of_nat (length cluster))).
  pose proof (uniformity_points_range (un_cv (bd_uniformity (breakdown r0)))).
  pose proof (round_points_range (rn_amount_zec (bd_round_number (breakdown r0)))
                (un_points (bd_uniformity (breakdown r0)))).
  pose proof (time_points_range (tc_hours (bd_time_clustering (breakdown r0)))).
  repeat split; try congruence; try lia.
Qed.

Lemma shield_raises_score_witness :
  exists r0 r1,
    score_cluster scenario_b None = Ok r0
    /\ score_cluster scenario_b (Some (mkTx "F2" 2290000 1699000000 500000000000 "orchard")) = Ok r1
    /\ 5 <= ms_points (bd_matching_shield (breakdown r1))
    /\ score r0 < score r1 <= 100.
Proof.
  eexists. eexists.
  split; [vm_compute; reflexivity|]. split; [vm_compute; reflexivity|].
  edestruct (shield_raises_score scenario_b
               (mkTx "F2" 2290000 1699000000 500000000000 "orchard"))
    as (_ & _ & _ & _ & Hm & Hs); [vm_compute; reflexivity | vm_compute; reflexivity |].
  split; [exact Hm | exact Hs].
Defined.

Lemma int_true_div_zero (b : Z) : 0 < b -> Py.int_true_div 0 b = 0%float.
Proof. destruct b; try lia. reflexivity. Qed.

(** X4. A matched shield whose amount equals the cluster's total earns the
    full 25 points of the match factor, and the breakdown records its id. *)
Theorem exact_match_points (cluster : list Tx) (shield : Tx) (r : ScoreResult) :
  score_cluster cluster (Some shield) = Ok r ->
  py_sum (map amount_zat cluster) = amount_zat shield ->
  0 < amount_zat shield ->
  ms_points (bd_matching_shield (breakdown r)) = 25
  /\ ms_found (bd_matching_shield (breakdown r)) = true
  /\ ms_txid (bd_matching_shield (breakdown r)) = Some (txid shield).
Proof.
  intros Hr Hsum Hpos.
  destruct (score_cluster_fields _ _ _ Hr) as (_ & _ & _ & _ & _ & _ & _ & _ & _ & Hm & _).
  split.
  - rewrite Hm. unfold match_points, diff_pct. rewrite Hsum.
    destruct (Z.ltb_spec 0 (amount_zat shield)); [|lia].
    rewrite Z.sub_diag. change (Z.abs 0) with 0.
    rewrite (int_true_div_zero _ Hpos). reflexivity.
  - revert Hr. unfold score_cluster.
    destruct (py_min _); [|discriminate]. destruct (py_max _); [|discriminate].
    intros [= <-]. split; reflexivity.
Qed.

Lemma exact_match_points_witness :
  exists r, score_cluster scenario_a (Some (mkTx "F1" 2290000 1699136000 600000000000 "orchard")) = Ok r
    /\ ms_points (bd_matching_shield (breakdown r)) = 25
    /\ ms_found (bd_matching_shield (breakdown r)) = true
    /\ ms_txid (bd_matching_shield (breakdown r)) = Some "F1".
Proof.
  eexists. split; [vm_compute; reflexivity|].
  apply (exact_match_points scenario_a (mkTx "F1" 2290000 1699136000 600000000000 "orchard"));
    [vm_compute; reflexivity | reflexivity | reflexivity].
Defined.

(** X5. A matched shield whose amount is zero or negative is never divided
    by: the difference counts as 100 percent and the match earns the
    minimum of 5 points. *)
Theorem nonpositive_shield_points (cluster : list Tx) (shield : Tx) (r : ScoreResult) :
  score_cluster cluster (Some shield) = Ok r ->
  amount_zat shield <= 0 ->
  ms_points (bd_matching_shield (breakdown r)) = 5.
Proof.
  intros Hr Hle.
  destruct (score_cluster_fields _ _ _ Hr) as (_ & _ & _ & _ & _ & _ & _ & _ & _ & Hm & _).
  rewrite Hm. unfold match_points, diff_pct.
  destruct (Z.ltb_spec 0 (amount_zat shield)); [lia|]. reflexivity.
Qed.

Lemma nonpositive_shield_points_witness :
  exists r, score_cluster scenario_b (Some (mkTx "F0" 2290000 1699136000 0 "orchard")) = Ok r
    /\ ms_points (bd_matching_shield (breakdown r)) = 5.
Proof.
  eexists. split; [vm_compute; reflexivity|].
  apply (nonpositive_shield_points scenario_b (mkTx "F0" 2290000 1699136000 0 "orchard"));
    [vm_compute; reflexivity | vm_compute; discriminate].
Defined.

(** X6. The time factor never decreases when the span shrinks: of two
    scored clusters, the one spanning no more hours earns at least as many
    time points. *)
Theorem time_points_monotone (c1 c2 : list Tx) (s1 s2 : option Tx) (r1 r2 : ScoreResult) :
  score_cluster c1 s1 = Ok r1 ->
  score_cluster c2 s2 = Ok r2 ->
  (tc_hours (bd_time_clustering (breakdown r1))
   <=? tc_hours (bd_time_clustering (breakdown r2)))%float = true ->
  tc_points (bd_time_clustering (breakdown r2)) <= tc_points (bd_time_clustering (breakdown r1)).
Proof.
  intros H1 H2 Hle.
  destruct (score_cluster_fields _ _ _ H1) as (_ & _ & _ & _ & _ & _ & _ & _ & Ht1 & _).
  destruct (score_cluster_fields _ _ _ H2) as (_ & _ & _ & _ & _ & _ & _ & _ & Ht2 & _).
  rewrite Ht1, Ht2. unfold time_points.
  set (h1 := tc_hours (bd_time_clustering (breakdown r1))) in *.
  set (h2 := tc_hours (bd_time_clustering (breakdown r2))) in *.
  pose proof (float_leb_ltb_trans h1 h2 6 Hle) as Ha.
  pose proof (float_leb_ltb_trans h1 h2 24 Hle) as Hb.
  pose proof (float_leb_ltb_trans h1 h2 72 Hle) as Hc.
  pose proof (float_leb_ltb_trans h1 h2 168 Hle) as Hd.
  destruct (h2 <? 6)%float; [rewrite Ha by reflexivity; lia|].
  destruct (h2 <? 24)%float; [rewrite Hb by reflexivity; branches; lia|].
  destruct (h2 <? 72)%float; [rewrite Hc by reflexivity; branches; lia|].
  destruct (h2 <? 168)%float; [rewrite Hd by reflexivity; branches; lia|].
  branches; lia.
Qed.

Lemma time_points_monotone_witness :
  exists r1 r2,
    score_cluster scenario_a None = Ok r1
    /\ score_cluster scenario_b None = Ok r2
    /\ tc_points (bd_time_clustering (breakdown r2)) <= tc_points (bd_time_clustering (breakdown r1)).
Proof.
  eexists. eexists.
  split; [vm_compute; reflexivity|]. split; [vm_compute; reflexivity|].
  apply (time_points_monotone scenario_a scenario_b None None);
    [vm_compute; reflexivity | vm_compute; reflexivity | reflexivity].
Defined.

(** X7. The match factor never decreases when the percent difference
    between the deshielded total and the shield shrinks. *)
Theorem match_points_monotone (a1 a2 : list Z) (s1 s2 : Tx) :
  (diff_pct (py_sum a1) (amount_zat s1) <=? diff_pct (py_sum a2) (amount_zat s2))%float = true ->
  match_points a2 (Some s2) <= match_points a1 (Some s1).
Proof.
  intros Hle. unfold match_points.
  set (d1 := diff_pct (py_sum a1) (amount_zat s1)) in *.
  set (d2 := diff_pct (py_sum a2) (amount_zat s2)) in *.
  pose proof (float_leb_ltb_trans d1 d2 0.01 Hle) as Ha.
  pose proof (float_leb_ltb_trans d1 d2 0.1 Hle) as Hb.
  pose proof (float_leb_ltb_trans d1 d2 1 Hle) as Hc.
  pose proof (float_leb_ltb_trans d1 d2 5 Hle) as Hd.
  destruct (d2 <? 0.01)%float; [rewrite Ha by reflexivity; lia|].
  destruct (d2 <? 0.1)%float; [rewrite Hb by reflexivity; branches; lia|].
  destruct (d2 <? 1)%float; [rewrite Hc by reflexivity; branches; lia|].
  destruct (d2 <? 5)%float; [rewrite Hd by reflexivity; branches; lia|].
  branches; lia.
Qed.

Lemma match_points_monotone_witness :
  (diff_pct 600000000000 600000300000 <=? diff_pct 600000000000 640000000000)%float = true
  /\ match_points [600000000000] (Some (mkTx "F3" 1 1 640000000000 "orchard"))
     <= match_points [600000000000] (Some (mkTx "F4" 1 1 600000300000 "orchard")).
Proof.
  split; [reflexivity|].
  apply (match_points_monotone [600000000000] [600000000000]
           (mkTx "F4" 1 1 600000300000 "orchard") (mkTx "F3" 1 1 640000000000 "orchard")).
  reflexivity.
Defined.

(** X8. An average amount below 10 ZEC is never flagged round: it earns at
    most the 5 points of the unit rung or the 8 points of the bonus. *)
Theorem small_amount_not_round (cluster : list Tx) (shield : option Tx) (r : ScoreResult) :
  score_cluster cluster shield = Ok r ->
  (rn_amount_zec (bd_round_number (breakdown r)) <? 10)%float = true ->
  rn_is_round (bd_round_number (breakdown r)) = false
  /\ rn_points (bd_round_number (breakdown r)) <= 8.
Proof.
  intros Hr Hlt.
  destruct (score_cluster_fields _ _ _ Hr) as (_ & _ & _ & _ & _ & Hp & Hround & _).
  set (a := rn_amount_zec (bd_round_number (breakdown r))) in *.
  assert (forall d : float, (d <? 10)%float = false -> (d <=? a)%float = false) as Hno.
  { intros d Hd. destruct (d <=? a)%float eqn:Hda; [|reflexivity].
    rewrite (float_leb_ltb_trans d a 10 Hda Hlt) in Hd. discriminate. }
  assert (rn_points (bd_round_number (breakdown r)) <= 8) as Hle.
  { rewrite Hp. unfold round_points.
    rewrite (Hno 1000%float), (Hno 500%float), (Hno 100%float), (Hno 50%float),
      (Hno 10%float) by reflexivity.
    cbn [andb]. branches; lia. }
  split; [|exact Hle]. rewrite Hround.
  destruct (Z.leb_spec 10 (rn_points (bd_round_number (breakdown r)))); [lia | reflexivity].
Qed.

Lemma small_amount_not_round_witness :
  exists r, score_cluster (sample_cluster "E" 700000000 [0; 10; 20]) None = Ok r
    /\ rn_amount_zec (bd_round_number (breakdown r)) = 7%float
    /\ rn_is_round (bd_round_number (breakdown r)) = false
    /\ rn_points (bd_round_number (breakdown r)) <= 8.
Proof.
  eexists. split; [vm_compute; reflexivity|]. split; [reflexivity|].
  apply (small_amount_not_round (sample_cluster "E" 700000000 [0; 10; 20]) None);
    [vm_compute; reflexivity | reflexivity].
Defined.

(** X9. A cluster whose uniformity factor scored at least 10 never gets 0
    for the round number: a rung awards 5 or more, and failing every rung
    the bonus awards 8. *)
Theorem uniform_cluster_round_points (cluster : list Tx) (shield : option Tx) (r : ScoreResult) :
  score_cluster cluster shield = Ok r ->
  10 <= un_points (bd_uniformity (breakdown r)) ->
  5 <= rn_points (bd_round_number (breakdown r)).
Proof.
  intros Hr Hu.
  destruct (score_cluster_fields _ _ _ Hr) as (_ & _ & _ & _ & _ & Hp & _).
  rewrite Hp. unfold round_points.
  destruct (Z.leb_spec 10 (un_points (bd_uniformity (breakdown r)))); [|lia].
  branches; lia.
Qed.

Lemma uniform_cluster_round_points_witness :
  exists r, score_cluster scenario_b None = Ok r
    /\ 10 <= un_points (bd_uniformity (breakdown r))
    /\ 5 <= rn_points (bd_round_number (breakdown r)).
Proof.
  eexists. split; [vm_compute; reflexivity|]. split; [vm_compute; discriminate|].
  apply (uniform_cluster_round_points scenario_b None);
    [vm_compute; reflexivity | vm_compute; discriminate].
Defined.

(** ** The pattern hash is a hex digest *)

Lemma be_bytes_length (n : nat) (x : Z) : length (SHA256.be_bytes n x) = n.
Proof. induction n as [|n IH]; simpl; [reflexivity | now rewrite IH]. Qed.

Lemma be_bytes_range (n : nat) (x : Z) :
  Forall (fun b => 0 <= b < 256) (SHA256.be_bytes n x).
Proof.
  induction n as [|n IH]; simpl; constructor; [|exact IH].
  apply Z.mod_pos_bound. lia.
Qed.

Lemma round_length (st : list Z) (kw : Z * Z) :
  length st = 8%nat -> length (SHA256.round st kw) = 8%nat.
Proof.
  intros Hlen. do 9 (destruct st as [|? st]; try discriminate). reflexivity.
Qed.

Lemma compress_length (h block : list Z) :
  length h = 8%nat -> length (SHA256.compress h block) = 8%nat.
Proof.
  intros Hlen. unfold SHA256.compress.
  rewrite length_map, length_combine.
  assert (forall kws st, length st = 8%nat ->
            length (fold_left SHA256.round kws st) = 8%nat) as Hfold.
  { induction kws as [|kw kws IH]; intros st Hst; simpl; [exact Hst|].
    apply IH, round_length, Hst. }
  rewrite Hfold by exact Hlen. rewrite Hlen. reflexivity.
Qed.

Lemma digest_length (msg : list Z) : length (SHA256.digest msg) = 8%nat.
Proof.
  unfold SHA256.digest.
  assert (forall blocks h, length h = 8%nat ->
            length (fold_left SHA256.compress blocks h) = 8%nat) as Hfold.
  { induction blocks as [|b blocks IH]; intros h Hh; simpl; [exact Hh|].
    apply IH, compress_length, Hh. }
  apply Hfold. reflexivity.
Qed.

Lemma hex_digit_is_hex (d : Z) :
  0 <= d < 16 -> In (SHA256.hex_digit d) (list_ascii_of_string "0123456789abcdef").
Proof.
  intros Hd.
  assert (exists k : nat, (k < 16)%nat /\ d = Z.of_nat k) as (k & Hk & ->).
  { exists (Z.to_nat d). lia. }
  do 16 (destruct k as [|k]; [cbv; auto 20|]).
  lia.
Qed.

Lemma hex_bytes_spec (bs : list Z) :
  Forall (fun b => 0 <= b < 256) bs ->
  length (flat_map (fun b => [SHA256.hex_digit (b / 16); SHA256.hex_digit (b mod 16)]) bs)
  = (2 * length bs)%nat
  /\ Forall (fun c => In c (list_ascii_of_string "0123456789abcdef"))
       (flat_map (fun b => [SHA256.hex_digit (b / 16); SHA256.hex_digit (b mod 16)]) bs).
Proof.
  induction 1 as [|b bs Hb _ [IHlen IHhex]]; [split; [reflexivity | constructor]|].
  cbn [flat_map app length]. split; [rewrite IHlen; lia|].
  constructor.
  { apply hex_digit_is_hex. split; [apply Z.div_pos; lia|].
    apply Z.div_lt_upper_bound; lia. }
  constructor; [|exact IHhex].
  apply hex_digit_is_hex, Z.mod_pos_bound. lia.
Qed.

Lemma hex_word_spec (x : Z) :
  length (SHA256.hex_word x) = 8%nat
  /\ Forall (fun c => In c (list_ascii_of_string "0123456789abcdef")) (SHA256.hex_word x).
Proof.
  unfold SHA256.hex_word.
  destruct (hex_bytes_spec _ (be_bytes_range 4 x)) as [Hlen Hhex].
  split; [|exact Hhex]. rewrite Hlen, be_bytes_length. reflexivity.
Qed.

Lemma hex_words_spec (ws : list Z) :
  length (flat_map SHA256.hex_word ws) = (8 * length ws)%nat
  /\ Forall (fun c => In c (list_ascii_of_string "0123456789abcdef"))
       (flat_map SHA256.hex_word ws).
Proof.
  induction ws as [|w ws [IHlen IHhex]]; [split; [reflexivity | constructor]|].
  cbn [flat_map length]. destruct (hex_word_spec w) as [Hlen Hhex]. split.
  - rewrite length_app, Hlen, IHlen. lia.
  - apply Forall_app. now split.
Qed.

Lemma string_of_list_ascii_length (l : list ascii) :
  String.length (string_of_list_ascii l) = length l.
Proof. induction l as [|c l IH]; simpl; [reflexivity | now rewrite IH]. Qed.

(** X10. The pattern hash of any list of transaction ids is 64 characters
    long, each a lowercase hexadecimal digit. *)
Theorem generate_pattern_hash_hex (ids : list string) :
  String.length (generate_pattern_hash ids) = 64%nat
  /\ Forall (fun c => In c (list_ascii_of_string "0123456789abcdef"))
       (list_ascii_of_string (generate_pattern_hash ids)).
Proof.
  unfold generate_pattern_hash, SHA256.hexdigest.
  set (ws := SHA256.digest _).
  destruct (hex_words_spec ws) as [Hlen Hhex].
  rewrite string_of_list_ascii_length, list_ascii_of_string_of_list_ascii.
  split; [|exact Hhex]. rewrite Hlen. unfold ws. now rewrite digest_length.
Qed.

(** ** The queries *)

Section InsertionSort.
Context {A : Type} (before : A -> A -> bool).

Lemma insert_by_Permutation (x : A) (l : list A) : insert_by before x l ≡ₚ x :: l.
Proof.
  induction l as [|y r IH]; simpl; [reflexivity|].
  destruct (before x y); [reflexivity|].
  rewrite IH. apply Permutation_swap.
Qed.

Lemma stable_sort_Permutation (l : list A) : stable_sort before l ≡ₚ l.
Proof.
  induction l as [|x l IH]; simpl; [reflexivity|].
  now rewrite insert_by_Permutation, IH.
Qed.

Hypothesis before_total : forall x y, before x y = false -> before y x = true.
Hypothesis before_trans :
  forall x y z, before x y = true -> before y z = true -> before x z = true.

Lemma insert_by_StronglySorted (x : A) (l : list A) :
  StronglySorted (fun a b => before a b = true) l ->
  StronglySorted (fun a b => before a b = true) (insert_by before x l).
Proof.
  induction 1 as [|y r Hr IH Hy]; simpl; [repeat constructor|].
  destruct (before x y) eqn:Hxy.
  - constructor; [now constructor|].
    constructor; [exact Hxy|].
    eapply Forall_impl; [exact Hy|]. intros z Hz. now apply (before_trans x y z).
  - constructor; [exact IH|].
    rewrite insert_by_Permutation. constructor; [now apply before_total | exact Hy].
Qed.

Lemma stable_sort_StronglySorted (l : list A) :
  StronglySorted (fun a b => before a b = true) (stable_sort before l).
Proof.
  induction l as [|x l IH]; simpl; [constructor | now apply insert_by_StronglySorted].
Qed.

End InsertionSort.



Lemma shield_rows_spec (conn : Conn) (total before_time tolerance : Z) (t : Tx) :
  t ∈ map flow_tx
        (filter (fun f => is_flow "shield" f
                          && (total - tolerance <=? amount_zat (flow_tx f))
                          && (amount_zat (flow_tx f) <=? total + tolerance)
                          && (block_time (flow_tx f) <? before_time)
                          && (before_time - 90 * 24 * 3600 <? block_time (flow_tx f)) = true)
                (shielded_flows conn))
  <-> Build_Flow "shield" t ∈ shielded_flows conn
      /\ total - tolerance <= amount_zat t <= total + tolerance
      /\ before_time - 90 * 24 * 3600 < block_time t < before_time.
Proof.
  rewrite list_elem_of_fmap. split.
  - intros ([kind t'] & -> & Hin). apply list_elem_of_filter in Hin as [Hcond Hin].
    unfold is_flow in Hcond. cbn in Hcond.
    repeat match goal with
      | H : _ && _ = true |- _ => apply andb_prop in H as [H ?]
      end.
    apply bool_decide_eq_true in Hcond. subst kind. cbn.
    split; [exact Hin|]. lia.
  - intros (Hin & Hamount & Htime). exists (Build_Flow "shield" t).
    split; [reflexivity|]. apply list_elem_of_filter. split; [|exact Hin].
    unfold is_flow. cbn. rewrite bool_decide_eq_true_2 by reflexivity. cbn.
    repeat (apply andb_true_intro; split); lia.
Qed.

(** Every row the shield query returns is a candidate of the table. *)
Lemma fetch_shields_sound (conn : Conn) (total before_time tolerance : Z) (t : Tx) :
  t ∈ fetch_shields conn total before_time tolerance ->
  Build_Flow "shield" t ∈ shielded_flows conn
  /\ total - tolerance <= amount_zat t <= total + tolerance
  /\ before_time - 90 * 24 * 3600 < block_time t < before_time.
Proof.
  unfold fetch_shields. intros Ht. apply shield_rows_spec.
  apply elem_of_take in Ht as (i & Hi & _). apply list_elem_of_lookup_2 in Hi.
  now rewrite stable_sort_Permutation in Hi.
Qed.

(** The shield query comes back empty exactly when the table has no
    candidate. *)
Lemma fetch_shields_nil (conn : Conn) (total before_time tolerance : Z) :
  fetch_shields conn total before_time tolerance = []
  <-> forall t, ~ (Build_Flow "shield" t ∈ shielded_flows conn
                   /\ total - tolerance <= amount_zat t <= total + tolerance
                   /\ before_time - 90 * 24 * 3600 < block_time t < before_time).
Proof.
  pose proof (shield_rows_spec conn total before_time tolerance) as Hrows.
  unfold fetch_shields.
  match goal with
  | |- take 5 (stable_sort ?b ?r) = [] <-> _ =>
      pose proof (stable_sort_Permutation b r) as Hperm;
      destruct (stable_sort b r) as [|x rest]
  end.
  - split; [|reflexivity]. intros _ t Ht. apply Hrows in Ht. rewrite <- Hperm in Ht.
    now apply elem_of_nil in Ht.
  - split; [discriminate|]. intros Hnone. exfalso.
    apply (Hnone x), Hrows. rewrite <- Hperm. left.
Qed.

(** X12. The shield query returns at most five rows, each a shield of the
    table within the tolerance of the total and inside the 90 days before
    the given time; the first row is a closest candidate of the whole
    table, the latest among equally close ones; and the result is empty
    only when the table has no candidate. *)
Theorem fetch_shields_spec (conn : Conn) (total before_time tolerance : Z) :
  let candidate t :=
    Build_Flow "shield" t ∈ shielded_flows conn
    /\ total - tolerance <= amount_zat t <= total + tolerance
    /\ before_time - 90 * 24 * 3600 < block_time t < before_time in
  let found := fetch_shields conn total before_time tolerance in
  (length found <= 5)%nat
  /\ Forall candidate found
  /\ (forall best t, head found = Some best -> candidate t ->
        Z.abs (amount_zat best - total) <= Z.abs (amount_zat t - total)
        /\ (Z.abs (amount_zat best - total) = Z.abs (amount_zat t - total) ->
            block_time t <= block_time best))
  /\ (found = [] <-> forall t, ~ candidate t).
Proof.
  cbv zeta.
  split; [unfold fetch_shields; rewrite length_take; lia|].
  split; [apply Forall_forall; intros t Ht; now apply fetch_shields_sound|].
  split; [|apply (fetch_shields_nil conn total before_time tolerance)].
  pose proof (shield_rows_spec conn total before_time tolerance) as Hrows.
  unfold fetch_shields.
  set (before := fun a b : Tx =>
                   (Z.abs (amount_zat a - total) <? Z.abs (amount_zat b - total))
                   || ((Z.abs (amount_zat a - total) =? Z.abs (amount_zat b - total))
                       && (block_time b <=? block_time a))).
  set (rows := map flow_tx (filter _ (shielded_flows conn))) in *.
  assert (StronglySorted (fun a b => before a b = true) (stable_sort before rows)) as Hsorted.
  { apply stable_sort_StronglySorted; unfold before.
    - intros x y Hxy.
      rewrite orb_false_iff, andb_false_iff, Z.ltb_ge, Z.eqb_neq, Z.leb_gt in Hxy.
      rewrite orb_true_iff, andb_true_iff, Z.ltb_lt, Z.eqb_eq, Z.leb_le. lia.
    - intros x y z Hxy Hyz.
      rewrite orb_true_iff, andb_true_iff, Z.ltb_lt, Z.eqb_eq, Z.leb_le in Hxy, Hyz.
      rewrite orb_true_iff, andb_true_iff, Z.ltb_lt, Z.eqb_eq, Z.leb_le. lia. }
  pose proof (stable_sort_Permutation before rows) as Hperm.
  intros best t Hbest Ht. apply Hrows in Ht. rewrite <- Hperm in Ht.
    destruct (stable_sort before rows) as [|b rest]; [discriminate|].
    cbn in Hbest. injection Hbest as ->.
    apply elem_of_cons in Ht as [->|Ht]; [split; [lia | intros; lia]|].
    apply StronglySorted_inv in Hsorted as [_ Hall].
    rewrite Forall_forall in Hall.
    specialize (Hall t Ht). unfold before in Hall.
    rewrite orb_true_iff, andb_true_iff, Z.ltb_lt, Z.eqb_eq, Z.leb_le in Hall.
    split; lia.
Qed.

(** ** The store *)

(** X13. Storing a pattern (not a dry run, on a table that accepts the
    statement) returns [True] and leaves a row under the pattern's hash
    that carries its score, level, metadata and an expiry 90 days after
    the database clock; every other row and the flows table are left as
    they were. *)
Theorem store_pattern_lookup (conn : Conn) (pattern : Pattern) :
  let conn' := snd (store_pattern conn pattern false) in
  fst (store_pattern conn pattern false) = true
  /\ (exists row,
        detected_patterns conn' !! generate_pattern_hash (txids pattern) = Some row
        /\ sp_score row = p_score pattern
        /\ sp_warning_level row = p_warning_level pattern
        /\ sp_metadata row = pattern
        /\ sp_expires_at row = db_now conn + 90 * 86400)
  /\ (forall h, h <> generate_pattern_hash (txids pattern) ->
        detected_patterns conn' !! h = detected_patterns conn !! h)
  /\ shielded_flows conn' = shielded_flows conn
  /\ db_now conn' = db_now conn.
Proof.
  cbn. split; [reflexivity|]. split.
  - rewrite lookup_insert_eq. eexists. split; [reflexivity|].
    destruct (detected_patterns conn !! _); repeat split.
  - split; [|split; reflexivity].
    intros h Hh. now rewrite lookup_insert_ne.
Qed.

Lemma pattern_hash_of_permutation (l l' : list string) :
  l ≡ₚ l' -> generate_pattern_hash l = generate_pattern_hash l'.
Proof. intros Hp. unfold generate_pattern_hash. now rewrite (sorted_canonical l l' Hp). Qed.

(** X14. Storing a pattern whose transaction ids are a permutation of an
    already stored pattern's adds no row: the existing row keeps the
    columns of its first insertion (ids, amounts, times, batch count) and
    takes the new score, level and metadata. *)
Theorem store_pattern_upsert (conn : Conn) (p q : Pattern) :
  txids q ≡ₚ txids p ->
  let conn1 := snd (store_pattern conn p false) in
  let conn2 := snd (store_pattern conn1 q false) in
  size (detected_patterns conn2) = size (detected_patterns conn1)
  /\ exists row1 row2,
       detected_patterns conn1 !! generate_pattern_hash (txids p) = Some row1
       /\ detected_patterns conn2 !! generate_pattern_hash (txids p) = Some row2
       /\ sp_deshield_txids row2 = sp_deshield_txids row1
       /\ sp_shield_txids row2 = sp_shield_txids row1
       /\ sp_total_amount_zat row2 = sp_total_amount_zat row1
       /\ sp_per_tx_amount_zat row2 = sp_per_tx_amount_zat row1
       /\ sp_batch_count row2 = sp_batch_count row1
       /\ sp_first_tx_time row2 = sp_first_tx_time row1
       /\ sp_last_tx_time row2 = sp_last_tx_time row1
       /\ sp_score row2 = p_score q
       /\ sp_warning_level row2 = p_warning_level q
       /\ sp_metadata row2 = q.
Proof.
  intros Hperm. cbn.
  rewrite (pattern_hash_of_permutation (txids q) (txids p) Hperm).
  set (h := generate_pattern_hash (txids p)).
  rewrite !lookup_insert_eq. split.
  - apply map_size_insert_Some. rewrite lookup_insert_eq. eauto.
  - eexists. eexists. split; [reflexivity|]. split; [reflexivity|].
    repeat split.
Qed.

Lemma store_pattern_upsert_witness :
  exists r p q,
    score_cluster scenario_b None = Ok r
    /\ build_pattern scenario_b r None = Ok p
    /\ build_pattern (reverse scenario_b) r None = Ok q
    /\ txids q ≡ₚ txids p
    /\ size (detected_patterns
               (snd (store_pattern (snd (store_pattern db_zero p false)) q false)))
       = size (detected_patterns (snd (store_pattern db_zero p false))).
Proof.
  eexists. eexists. eexists.
  split; [vm_compute; reflexivity|].
  split; [vm_compute; reflexivity|].
  split; [vm_compute; reflexivity|].
  assert (map txid (reverse scenario_b) ≡ₚ map txid scenario_b) as Hperm.
  { rewrite <- (reverse_Permutation scenario_b) at 2. reflexivity. }
  split; [exact Hperm|].
  match goal with
  | |- size (detected_patterns (snd (store_pattern (snd (store_pattern _ ?p _)) ?q _))) = _ =>
      exact (proj1 (store_pattern_upsert db_zero p q Hperm))
  end.
Defined.


(** ** The returned mapping is a partition *)

Lemma dict_append_keys (l k : Z) (t : Tx) (clusters : list (Z * list Tx)) :
  k ∈ map fst (dict_append l t clusters) <-> k = l \/ k ∈ map fst clusters.
Proof.
  induction clusters as [|[l' ts] rest IH]; simpl.
  - rewrite list_elem_of_singleton. split; [now left | intros [H|H]; [exact H|]].
    now apply elem_of_nil in H.
  - destruct (Z.eqb_spec l' l) as [->|Hne]; simpl; rewrite !elem_of_cons.
    + tauto.
    + rewrite IH. tauto.
Qed.

Lemma dict_append_NoDup (l : Z) (t : Tx) (clusters : list (Z * list Tx)) :
  NoDup (map fst clusters) -> NoDup (map fst (dict_append l t clusters)).
Proof.
  induction clusters as [|[l' ts] rest IH]; simpl; intros Hnd.
  - repeat constructor. apply not_elem_of_nil.
  - apply NoDup_cons in Hnd as [Hnotin Hnd].
    destruct (Z.eqb_spec l' l) as [->|Hne]; simpl.
    + now apply NoDup_cons.
    + apply NoDup_cons. split; [|now apply IH].
      rewrite dict_append_keys. intros [->|Hin]; [congruence | contradiction].
Qed.

Lemma dict_append_nonempty (l : Z) (t : Tx) (clusters : list (Z * list Tx)) :
  Forall (fun c => snd c <> []) clusters ->
  Forall (fun c => snd c <> []) (dict_append l t clusters).
Proof.
  induction 1 as [|[l' ts] rest Hc Hrest IH]; simpl.
  - repeat constructor. discriminate.
  - destruct (l' =? l); constructor; try assumption.
    simpl. intros Heq. now apply app_eq_nil in Heq as [_ ?].
Qed.

Lemma dict_append_members (l : Z) (t : Tx) (clusters : list (Z * list Tx)) :
  concat (map snd (dict_append l t clusters)) ≡ₚ t :: concat (map snd clusters).
Proof.
  induction clusters as [|[l' ts] rest IH]; simpl; [reflexivity|].
  destruct (l' =? l); simpl.
  - rewrite <- app_assoc. cbn. symmetry. apply Permutation_middle.
  - rewrite IH. symmetry. apply Permutation_middle.
Qed.

Lemma group_fold_partition (items : list (Z * Tx)) :
  forall acc : list (Z * list Tx),
  NoDup (map fst acc) ->
  Forall (fun c => fst c <> -1 /\ snd c <> []) acc ->
  let out := fold_left
               (fun clusters '(label, t) =>
                  if label =? -1 then clusters else dict_append label t clusters)
               items acc in
  NoDup (map fst out)
  /\ Forall (fun c => fst c <> -1 /\ snd c <> []) out
  /\ concat (map snd out)
     ≡ₚ concat (map snd acc) ++ map snd (filter (fun it => fst it <> -1) items).
Proof.
  induction items as [|[l t] items IH]; intros acc Hnd Hall; cbn [fold_left].
  - cbn. rewrite app_nil_r. now repeat split.
  - destruct (Z.eqb_spec l (-1)) as [->|Hne].
    + destruct (IH acc Hnd Hall) as (H1 & H2 & H3).
      split; [exact H1|]. split; [exact H2|].
      rewrite H3, filter_cons_False by (cbn; tauto). reflexivity.
    + destruct (IH (dict_append l t acc)) as (H1 & H2 & H3).
      * now apply dict_append_NoDup.
      * apply Forall_forall. intros [k ts] Hin. split.
        -- assert (k ∈ map fst (dict_append l t acc)) as Hk.
           { apply list_elem_of_fmap. now exists (k, ts). }
           apply dict_append_keys in Hk as [->|Hk]; [exact Hne|].
           apply list_elem_of_fmap in Hk as ([k' ts'] & -> & Hin').
           rewrite Forall_forall in Hall. exact (proj1 (Hall _ Hin')).
        -- assert (Forall (fun c : Z * list Tx => snd c <> []) (dict_append l t acc)) as Hne'.
           { apply dict_append_nonempty. eapply Forall_impl; [exact Hall|]. now intros ? [_ ?]. }
           rewrite Forall_forall in Hne'. exact (Hne' _ Hin).
      * split; [exact H1|]. split; [exact H2|].
        rewrite H3, dict_append_members, filter_cons_True by (cbn; exact Hne).
        cbn. apply Permutation_middle.
Qed.

Lemma labelled_sublist (labels : list Z) :
  forall deshields : list Tx,
  map snd (filter (fun it : Z * Tx => fst it <> -1) (combine labels deshields))
  `sublist_of` deshields.
Proof.
  induction labels as [|l labels IH]; intros [|t deshields]; simpl;
    try apply sublist_nil_l.
  rewrite filter_cons. case_decide; simpl.
  - apply sublist_skip, IH.
  - apply sublist_cons, IH.
Qed.

(** The members of all returned clusters are records of the batch, each
    at most as often as the batch holds it. *)
Lemma cluster_members_submseteq `{Libm} (deshields : list Tx) (eps : float)
    (min_samples : Z) (clusters : list (Z * list Tx)) :
  cluster_by_amount deshields eps min_samples = Ok clusters ->
  concat (map snd clusters) ⊆+ deshields.
Proof.
  unfold cluster_by_amount.
  destruct (_ <? min_samples); [intros [= <-]; apply submseteq_nil_l|].
  destruct (DBSCAN.fit _ _ _) as [labels|]; [|discriminate].
  cbn. intros [= <-]. unfold group_by_label.
  destruct (group_fold_partition (combine labels deshields) [])
    as (_ & _ & H3); [constructor | constructor |].
  rewrite H3. cbn. apply sublist_submseteq, labelled_sublist.
Qed.

(** X16. The mapping the clusterer returns is a partition of part of the
    batch: its labels are distinct, none is the noise label, no cluster is
    empty, and the members of all clusters together form a sub-multiset of
    the input records, so no record is listed twice. *)
Theorem cluster_by_amount_partition `{Libm} (deshields : list Tx) (eps : float)
    (min_samples : Z) (clusters : list (Z * list Tx)) :
  cluster_by_amount deshields eps min_samples = Ok clusters ->
  NoDup (map fst clusters)
  /\ Forall (fun c => fst c <> -1 /\ snd c <> []) clusters
  /\ concat (map snd clusters) ⊆+ deshields.
Proof.
  intros Hc. pose proof (cluster_members_submseteq _ _ _ _ Hc) as Hsub.
  revert Hc. unfold cluster_by_amount.
  destruct (_ <? min_samples).
  { intros [= <-]. repeat split; [constructor | constructor | apply submseteq_nil_l]. }
  destruct (DBSCAN.fit _ _ _) as [labels|]; [|discriminate].
  cbn. intros [= <-]. unfold group_by_label in *.
  destruct (group_fold_partition (combine labels deshields) [])
    as (H1 & H2 & _); [constructor | constructor |].
  split; [exact H1|]. split; [exact H2 | exact Hsub].
Qed.

Lemma cluster_by_amount_partition_witness :
  exists clusters,
    @cluster_by_amount Reference.libm (strays ++ scenario_b) 0.0001 3 = Ok clusters
    /\ NoDup (map fst clusters)
    /\ Forall (fun c => fst c <> -1 /\ snd c <> []) clusters
    /\ concat (map snd clusters) ⊆+ strays ++ scenario_b.
Proof.
  eexists. split; [vm_compute; reflexivity|].
  apply (@cluster_by_amount_partition Reference.libm (strays ++ scenario_b) 0.0001%float 3).
  vm_compute. reflexivity.
Defined.

(** ** Patterns and where they come from *)

Lemma fold_min_le (r : list Z) (x : Z) :
  fold_left Z.min r x <= x /\ Forall (fun t => fold_left Z.min r x <= t) r.
Proof.
  revert x. induction r as [|y r IH]; intros x; simpl; [split; [lia | constructor]|].
  destruct (IH (Z.min x y)) as [H1 H2]. split; [lia|].
  constructor; [lia | exact H2].
Qed.

Lemma fold_max_ge (r : list Z) (x : Z) :
  x <= fold_left Z.max r x /\ Forall (fun t => t <= fold_left Z.max r x) r.
Proof.
  revert x. induction r as [|y r IH]; intros x; simpl; [split; [lia | constructor]|].
  destruct (IH (Z.max x y)) as [H1 H2]. split; [lia|].
  constructor; [lia | exact H2].
Qed.

Lemma py_min_max_bounds (xs : list Z) (lo hi : Z) :
  py_min xs = Ok lo -> py_max xs = Ok hi ->
  lo <= hi /\ Forall (fun t => lo <= t <= hi) xs.
Proof.
  destruct xs as [|x r]; [discriminate|]. simpl. intros [= <-] [= <-].
  destruct (fold_min_le r x) as [Hmin Hmins].
  destruct (fold_max_ge r x) as [Hmax Hmaxs].
  split; [lia|]. constructor; [lia|].
  rewrite Forall_forall in *. intros t Ht.
  specialize (Hmins t Ht). specialize (Hmaxs t Ht). lia.
Qed.

(** What [build_pattern] puts into the pattern it returns. *)
Lemma build_pattern_facts (cluster : list Tx) (sr : ScoreResult)
    (shield : option Tx) (p : Pattern) :
  build_pattern cluster sr shield = Ok p ->
  cluster <> []
  /\ batch_count p = Z.of_nat (length cluster)
  /\ txids p = map txid cluster
  /\ heights p = map block_height cluster
  /\ times p = map block_time cluster
  /\ py_min (map block_time cluster) = Ok (first_time p)
  /\ py_max (map block_time cluster) = Ok (last_time p)
  /\ total_amount_zat p = py_sum (map amount_zat cluster)
  /\ p_score p = score sr
  /\ p_warning_level p = warning_level sr
  /\ p_breakdown p = breakdown sr
  /\ shield_txids p = (fun m => [txid m]) <$> shield
  /\ matching_shield p
     = (fun m => {| si_txid := txid m;
                    si_amount_zec := (Py.float_of_int (amount_zat m) / 1e8)%float;
                    si_block_height := block_height m;
                    si_block_time := block_time m |}) <$> shield.
Proof.
  unfold build_pattern.
  destruct (Py.int_of_float _) as [avg|]; [|discriminate].
  destruct (py_min _) as [first|] eqn:Hmin; [|discriminate].
  destruct (py_max _) as [last|] eqn:Hmax; [|discriminate].
  intros [= <-]. cbn. repeat split.
  intros ->. discriminate.
Qed.

(** X17. A pattern that [build_pattern] returns is consistent: the cluster
    was not empty, the batch count is the number of ids, heights and times,
    the ids are those of the cluster in order, every time lies between the
    first and the last, the total is the sum of the amounts, and score,
    level, breakdown and the id of the matched shield are those handed
    in. *)
Theorem build_pattern_consistent (cluster : list Tx) (sr : ScoreResult)
    (shield : option Tx) (p : Pattern) :
  build_pattern cluster sr shield = Ok p ->
  cluster <> []
  /\ batch_count p = Z.of_nat (length (txids p))
  /\ length (heights p) = length (txids p)
  /\ length (times p) = length (txids p)
  /\ txids p = map txid cluster
  /\ first_time p <= last_time p
  /\ Forall (fun t => first_time p <= t <= last_time p) (times p)
  /\ total_amount_zat p = py_sum (map amount_zat cluster)
  /\ p_score p = score sr
  /\ p_warning_level p = warning_level sr
  /\ p_breakdown p = breakdown sr
  /\ shield_txids p = (fun m => [txid m]) <$> shield
  /\ si_txid <$> matching_shield p = txid <$> shield.
Proof.
  intros Hb.
  destruct (build_pattern_facts _ _ _ _ Hb)
    as (Hne & Hcount & Hids & Hheights & Htimes & Hmin & Hmax & Htotal & Hs & Hl & Hbd
        & Hsh & Hms).
  destruct (py_min_max_bounds _ _ _ Hmin Hmax) as [Hle Hall].
  rewrite Hids, Hheights, Htimes, Hms, !length_map.
  repeat split; try assumption.
  now destruct shield.
Qed.

Lemma build_pattern_consistent_witness :
  exists r p,
    score_cluster scenario_b None = Ok r
    /\ build_pattern scenario_b r None = Ok p
    /\ batch_count p = Z.of_nat (length (txids p))
    /\ first_time p <= last_time p
    /\ Forall (fun t => first_time p <= t <= last_time p) (times p).
Proof.
  eexists. eexists.
  split; [vm_compute; reflexivity|].
  match goal with
  | |- build_pattern ?c ?r ?s = Ok ?p /\ _ =>
      assert (build_pattern c r s = Ok p) as Hb by (vm_compute; reflexivity)
  end.
  split; [exact Hb|].
  destruct (build_pattern_consistent _ _ _ _ Hb) as (_ & Hcount & _ & _ & _ & Hle & Hall & _).
  split; [exact Hcount|]. split; [exact Hle | exact Hall].
Defined.

Lemma fetch_shields_flows (c1 c2 : Conn) (total before_time tolerance : Z) :
  shielded_flows c1 = shielded_flows c2 ->
  fetch_shields c1 total before_time tolerance = fetch_shields c2 total before_time tolerance.
Proof. unfold fetch_shields. now intros ->. Qed.

Lemma reported_from_flows (c1 c2 : Conn) (mcs : Z) (cluster : list Tx) (p : Pattern) :
  shielded_flows c1 = shielded_flows c2 ->
  reported_from c1 mcs cluster p -> reported_from c2 mcs cluster p.
Proof.
  intros Hflows (Hsize & first & sr & Hmin & Hscore & H35 & Hbuild).
  split; [exact Hsize|]. exists first, sr.
  rewrite <- (fetch_shields_flows c1 c2 _ _ _ Hflows). now repeat split.
Qed.

Lemma store_pattern_flows (conn : Conn) (p : Pattern) (dry : bool) :
  shielded_flows (snd (store_pattern conn p dry)) = shielded_flows conn.
Proof. unfold store_pattern. now destruct dry. Qed.

(** One visit keeps the flows table, and a pattern it appends is the one
    reported from the visited cluster. *)
Lemma visit_cluster_provenance (mcs : Z) (dry : bool) (ps ps' : list Pattern)
    (conn conn' : Conn) (item : Z * list Tx) :
  visit_cluster mcs dry (Ok ps, conn) item = (Ok ps', conn') ->
  (ps' = ps /\ conn' = conn)
  \/ exists p, ps' = ps ++ [p]
       /\ reported_from conn mcs (snd item) p
       /\ conn' = (if dry then conn else snd (store_pattern conn p false)).
Proof.
  unfold visit_cluster.
  destruct (Z.ltb_spec (Z.of_nat (length (snd item))) mcs) as [Hlt|Hge];
    [intros [= <- <-]; now left|].
  destruct (py_min _) as [first|] eqn:Hmin; [|discriminate].
  destruct (score_cluster _ _) as [sr|] eqn:Hscore; [|discriminate].
  destruct (Z.ltb_spec (score sr) 35) as [Hlt|H35]; [intros [= <- <-]; now left|].
  destruct (build_pattern _ _ _) as [p|] eqn:Hp; [|discriminate].
  intros [= <- <-]. right. exists p. split; [reflexivity|]. split; [|reflexivity].
  split; [lia|]. exists first, sr. now repeat split.
Qed.

Lemma collect_provenance (mcs : Z) (dry : bool) (clusters : list (Z * list Tx)) :
  forall (ps found : list Pattern) (conn conn' : Conn),
  fold_left (visit_cluster mcs dry) clusters (Ok ps, conn) = (Ok found, conn') ->
  shielded_flows conn' = shielded_flows conn
  /\ exists new, found = ps ++ new
       /\ Forall (fun p => exists item, item ∈ clusters
                             /\ reported_from conn mcs (snd item) p) new.
Proof.
  induction clusters as [|c cs IH]; cbn [fold_left]; intros ps found conn conn' Hf.
  - injection Hf as <- <-. split; [reflexivity|]. exists []. rewrite app_nil_r.
    split; [reflexivity | constructor].
  - destruct (visit_cluster mcs dry (Ok ps, conn) c) as [[ps1|e] conn1] eqn:Hv;
      [|rewrite visit_cluster_Raise in Hf; discriminate].
    destruct (IH _ _ _ _ Hf) as (Hflows & new & -> & Hall).
    assert (shielded_flows conn1 = shielded_flows conn) as Hflows1.
    { destruct (visit_cluster_provenance _ _ _ _ _ _ _ Hv)
        as [[_ ->]|(p & _ & _ & ->)]; [reflexivity|].
      destruct dry; [reflexivity | apply store_pattern_flows]. }
    split; [congruence|].
    assert (Forall (fun p => exists item, item ∈ c :: cs
                               /\ reported_from conn mcs (snd item) p) new) as Hall'.
    { eapply Forall_impl; [exact Hall|]. intros p (item & Hin & Hrep).
      exists item. split; [now right|]. eapply reported_from_flows; eassumption. }
    destruct (visit_cluster_provenance _ _ _ _ _ _ _ Hv)
      as [[-> _]|(p & -> & Hrep & _)].
    + exists new. split; [reflexivity | exact Hall'].
    + exists (p :: new). rewrite <- app_assoc. split; [reflexivity|].
      constructor; [|exact Hall']. exists c. split; [left | exact Hrep].
Qed.

(** Every returned pattern is reported from a cluster of the mapping the
    clusterer returned for the fetched deshields. *)
Lemma detect_patterns_provenance `{Libm} (conn : Conn) (now : Z)
    (period_days min_cluster_size : Z) (min_amount_zec eps : float)
    (dry_run verbose : bool) (patterns : list Pattern) :
  returned (detect_patterns conn now period_days min_cluster_size min_amount_zec eps
              dry_run verbose) = Ok patterns ->
  exists (min_amount_zat : Z) (clusters : list (Z * list Tx)),
    Py.int_of_float (min_amount_zec * 1e8) = Ok min_amount_zat
    /\ (patterns = []
        \/ cluster_by_amount (fetch_deshields conn now period_days min_amount_zat)
             eps min_cluster_size = Ok clusters)
    /\ Forall (fun p => exists item, item ∈ clusters
                          /\ reported_from conn min_cluster_size (snd item) p) patterns
    /\ concat (map txids patterns) ⊆+ concat (map (fun c => map txid (snd c)) clusters).
Proof.
  unfold detect_patterns.
  destruct (Py.int_of_float _) as [min_amount_zat|] eqn:Hmin; [|discriminate].
  destruct (_ <? min_cluster_size).
  { intros [= <-]. exists min_amount_zat, []. split; [reflexivity|].
    split; [now left|]. split; constructor. }
  destruct (cluster_by_amount _ _ _) as [clusters|] eqn:Hcl; [|discriminate].
  destruct (collect_patterns _ _ _ _) as [[found|e] conn'] eqn:Hc; [|discriminate].
  cbn. intros [= <-]. exists min_amount_zat, clusters. split; [reflexivity|].
  split; [now right|].
  destruct (collect_provenance _ _ _ _ _ _ _ Hc) as (_ & new & Hnew & Hall).
  destruct (collect_from _ _ _ _ _ _ _ Hc) as (new' & Hnew' & _ & Hsub).
  simpl in Hnew, Hnew'. subst new new'.
  unfold sort_by_score. split.
  - now rewrite stable_sort_Permutation.
  - rewrite (stable_sort_Permutation (key_before p_score) found).
    apply sublist_submseteq. clear -Hsub.
    revert Hsub. generalize (map txids found), (map (fun c => map txid (snd c)) clusters).
    induction 1; simpl; [constructor | | ].
    + now apply sublist_app.
    + now apply sublist_inserts_l.
Qed.

(** ** The pipeline's patterns *)

Lemma score_cluster_range (cluster : list Tx) (shield : option Tx) (r : ScoreResult) :
  score_cluster cluster shield = Ok r ->
  10 <= score r <= 100 /\ warning_level r = level_of (score r).
Proof.
  intros Hr.
  destruct (score_cluster_fields _ _ _ Hr)
    as (_ & Hs & _ & Hu & _ & Hr' & _ & _ & Ht & Hm & Hscore & Hlevel).
  pose proof (size_points_range (Z.of_nat (length cluster))).
  pose proof (uniformity_points_range (un_cv (bd_uniformity (breakdown r)))).
  pose proof (round_points_range (rn_amount_zec (bd_round_number (breakdown r)))
                (un_points (bd_uniformity (breakdown r)))).
  pose proof (time_points_range (tc_hours (bd_time_clustering (breakdown r)))).
  pose proof (match_points_range (map amount_zat cluster) shield).
  split; [lia | exact Hlevel].
Qed.

Lemma score_cluster_match_entry (cluster : list Tx) (shield : option Tx) (r : ScoreResult) :
  score_cluster cluster shield = Ok r ->
  ms_found (bd_matching_shield (breakdown r)) = bool_decide (is_Some shield)
  /\ ms_txid (bd_matching_shield (breakdown r)) = txid <$> shield.
Proof.
  unfold score_cluster.
  destruct (py_min _); [|discriminate]. destruct (py_max _); [|discriminate].
  intros [= <-]. split; reflexivity.
Qed.

(** X18. Every pattern a run returns has at least [min_cluster_size]
    transactions and at least one, a batch count equal to the number of its
    ids, a first time no later than its last, a score between 35 and 100,
    and the warning level of that score. *)
Theorem detect_patterns_invariants `{Libm} (conn : Conn) (now : Z)
    (period_days min_cluster_size : Z) (min_amount_zec eps : float)
    (dry_run verbose : bool) (patterns : list Pattern) :
  returned (detect_patterns conn now period_days min_cluster_size min_amount_zec eps
              dry_run verbose) = Ok patterns ->
  Forall (fun p =>
            min_cluster_size <= batch_count p
            /\ 1 <= batch_count p
            /\ batch_count p = Z.of_nat (length (txids p))
            /\ first_time p <= last_time p
            /\ 35 <= p_score p <= 100
            /\ p_warning_level p = level_of (p_score p)) patterns.
Proof.
  intros Hret.
  destruct (detect_patterns_provenance _ _ _ _ _ _ _ _ _ Hret)
    as (min_amount_zat & clusters & _ & _ & Hall & _).
  eapply Forall_impl; [exact Hall|]. clear Hall.
  intros p (item & _ & Hsize & first & sr & Hmin & Hscore & H35 & Hbuild).
  destruct (build_pattern_facts _ _ _ _ Hbuild)
    as (Hne & Hcount & Hids & _ & _ & Hfirst & Hlast & _ & Hs & Hl & _).
  destruct (py_min_max_bounds _ _ _ Hfirst Hlast) as [Hle _].
  destruct (score_cluster_range _ _ _ Hscore) as [Hrange Hlevel].
  rewrite Hcount, Hids, Hs, Hl, length_map.
  repeat split; try lia; try assumption.
  destruct (snd item); [congruence | simpl; lia].
Qed.

Lemma detect_patterns_invariants_witness :
  exists patterns,
    returned (@detect_patterns Reference.libm db_scenarios 1700100000 30 3 1 0.0001
                true false) = Ok patterns
    /\ length patterns = 3%nat
    /\ Forall (fun p =>
                 3 <= batch_count p
                 /\ 1 <= batch_count p
                 /\ batch_count p = Z.of_nat (length (txids p))
                 /\ first_time p <= last_time p
                 /\ 35 <= p_score p <= 100
                 /\ p_warning_level p = level_of (p_score p)) patterns.
Proof.
  eexists. split; [vm_compute; reflexivity|]. split; [reflexivity|].
  apply (@detect_patterns_invariants Reference.libm db_scenarios 1700100000 30 3
           1%float 0.0001%float true false).
  vm_compute. reflexivity.
Defined.

(** X19. The transactions of all returned patterns together are fetched
    deshields, each at most as often as the query returned it: no fetched
    row is reported in two patterns. *)
Theorem detect_patterns_members `{Libm} (conn : Conn) (now : Z)
    (period_days min_cluster_size : Z) (min_amount_zec eps : float)
    (dry_run verbose : bool) (patterns : list Pattern) :
  returned (detect_patterns conn now period_days min_cluster_size min_amount_zec eps
              dry_run verbose) = Ok patterns ->
  exists min_amount_zat,
    Py.int_of_float (min_amount_zec * 1e8) = Ok min_amount_zat
    /\ concat (map txids patterns)
       ⊆+ map txid (fetch_deshields conn now period_days min_amount_zat).
Proof.
  intros Hret.
  destruct (detect_patterns_provenance _ _ _ _ _ _ _ _ _ Hret)
    as (min_amount_zat & clusters & Hmin & Hcl & _ & Hsub).
  exists min_amount_zat. split; [exact Hmin|].
  destruct Hcl as [->|Hcl]; [apply submseteq_nil_l|].
  etransitivity; [exact Hsub|].
  assert (concat (map (fun c : Z * list Tx => map txid (snd c)) clusters)
          = map txid (concat (map snd clusters))) as ->.
  { clear. induction clusters as [|c cs IH]; simpl; [reflexivity|].
    now rewrite IH, map_app. }
  apply fmap_submseteq. eapply cluster_members_submseteq, Hcl.
Qed.

Lemma detect_patterns_members_witness :
  exists patterns,
    returned (@detect_patterns Reference.libm db_scenarios 1700100000 30 3 1 0.0001
                true false) = Ok patterns
    /\ length (concat (map txids patterns)) = 28%nat
    /\ concat (map txids patterns)
       ⊆+ map txid (fetch_deshields db_scenarios 1700100000 30 100000000).
Proof.
  eexists. split; [vm_compute; reflexivity|]. split; [reflexivity|].
  edestruct (@detect_patterns_members Reference.libm db_scenarios 1700100000 30 3
               1%float 0.0001%float true false) as (m & Hm & Hsub);
    [vm_compute; reflexivity|].
  vm_compute in Hm. injection Hm as <-. exact Hsub.
Defined.

(** X20. A returned pattern records a funding match only for a shield row
    of the table that precedes the pattern's first deshield by less than
    90 days and whose amount is within 1,000,000 zatoshi of the pattern's
    total; a pattern without a match means the table holds no such row. *)
Theorem detect_patterns_funding `{Libm} (conn : Conn) (now : Z)
    (period_days min_cluster_size : Z) (min_amount_zec eps : float)
    (dry_run verbose : bool) (patterns : list Pattern) :
  returned (detect_patterns conn now period_days min_cluster_size min_amount_zec eps
              dry_run verbose) = Ok patterns ->
  Forall (fun p =>
            let candidate row :=
              Build_Flow "shield" row ∈ shielded_flows conn
              /\ total_amount_zat p - 1000000 <= amount_zat row <= total_amount_zat p + 1000000
              /\ first_time p - 90 * 24 * 3600 < block_time row < first_time p in
            match matching_shield p with
            | Some s =>
                exists row, candidate row
                  /\ si_txid s = txid row
                  /\ si_block_time s = block_time row
                  /\ si_block_height s = block_height row
                  /\ shield_txids p = Some [txid row]
                  /\ ms_found (bd_matching_shield (p_breakdown p)) = true
                  /\ ms_txid (bd_matching_shield (p_breakdown p)) = Some (txid row)
            | None =>
                (forall row, ~ candidate row)
                /\ shield_txids p = None
                /\ ms_found (bd_matching_shield (p_breakdown p)) = false
                /\ ms_points (bd_matching_shield (p_breakdown p)) = 0
            end) patterns.
Proof.
  intros Hret.
  destruct (detect_patterns_provenance _ _ _ _ _ _ _ _ _ Hret)
    as (min_amount_zat & clusters & _ & _ & Hall & _).
  eapply Forall_impl; [exact Hall|]. clear Hall.
  intros p (item & _ & Hsize & first & sr & Hmin & Hscore & H35 & Hbuild).
  destruct (build_pattern_facts _ _ _ _ Hbuild)
    as (_ & _ & _ & _ & _ & Hfirst & _ & Htotal & _ & _ & Hbd & Hsh & Hms).
  rewrite Hmin in Hfirst. injection Hfirst as ->.
  destruct (score_cluster_match_entry _ _ _ Hscore) as [Hfound Hid].
  destruct (score_cluster_fields _ _ _ Hscore) as (_ & _ & _ & _ & _ & _ & _ & _ & _ & Hpts & _).
  cbv zeta. rewrite Hms, Hsh, Hbd, Hfound, Hid, Hpts, Htotal.
  destruct (fetch_shields conn _ _ _) as [|row rest] eqn:Hfetch; cbn.
  - split; [|repeat split]. now apply fetch_shields_nil.
  - assert (row ∈ fetch_shields conn (py_sum (map amount_zat (snd item))) (first_time p)
                    1000000) as Hin by (rewrite Hfetch; left).
    apply fetch_shields_sound in Hin.
    exists row. split; [exact Hin|]. repeat split.
Qed.

Lemma detect_patterns_funding_witness :
  exists patterns,
    returned (@detect_patterns Reference.libm db_scenarios 1700100000 30 3 1 0.0001
                true false) = Ok patterns
    /\ map (fun p => si_txid <$> matching_shield p) patterns = [Some "F1"; None; None]
    /\ Forall (fun p =>
                 match matching_shield p with
                 | Some s =>
                     exists row,
                       (Build_Flow "shield" row ∈ shielded_flows db_scenarios
                        /\ total_amount_zat p - 1000000 <= amount_zat row
                           <= total_amount_zat p + 1000000
                        /\ first_time p - 90 * 24 * 3600 < block_time row < first_time p)
                       /\ si_txid s = txid row
                       /\ si_block_time s = block_time row
                       /\ si_block_height s = block_height row
                       /\ shield_txids p = Some [txid row]
                       /\ ms_found (bd_matching_shield (p_breakdown p)) = true
                       /\ ms_txid (bd_matching_shield (p_breakdown p)) = Some (txid row)
                 | None =>
                     (forall row,
                        ~ (Build_Flow "shield" row ∈ shielded_flows db_scenarios
                           /\ total_amount_zat p - 1000000 <= amount_zat row
                              <= total_amount_zat p + 1000000
                           /\ first_time p - 90 * 24 * 3600 < block_time row < first_time p))
                     /\ shield_txids p = None
                     /\ ms_found (bd_matching_shield (p_breakdown p)) = false
                     /\ ms_points (bd_matching_shield (p_breakdown p)) = 0
                 end) patterns.
Proof.
  eexists. split; [vm_compute; reflexivity|]. split; [reflexivity|].
  apply (@detect_patterns_funding Reference.libm db_scenarios 1700100000 30 3
           1%float 0.0001%float true false).
  vm_compute. reflexivity.
Defined.

(** ** Dry runs, stores and printing *)









(** X23. With fewer fetched deshields than [min_cluster_size] the run
    returns no pattern, says so last, and leaves the database as it was,
    whatever [eps], the flags and the platform's [log10] are. *)
Theorem detect_patterns_too_few `{Libm} (conn : Conn) (now : Z)
    (period_days min_cluster_size : Z) (min_amount_zec eps : float)
    (dry_run verbose : bool) (min_amount_zat : Z) :
  Py.int_of_float (min_amount_zec * 1e8) = Ok min_amount_zat ->
  Z.of_nat (length (fetch_deshields conn now period_days min_amount_zat)) < min_cluster_size ->
  let run := detect_patterns conn now period_days min_cluster_size min_amount_zec eps
               dry_run verbose in
  returned run = Ok []
  /\ conn_after run = conn
  /\ last (printed run) = Some NotEnoughDeshields.
Proof.
  intros Hmin Hlt. cbv zeta. unfold detect_patterns. rewrite Hmin.
  destruct (Z.ltb_spec (Z.of_nat (length (fetch_deshields conn now period_days min_amount_zat)))
              min_cluster_size); [|lia].
  cbn. split; [reflexivity|]. split; [reflexivity|]. now destruct verbose.
Qed.

Lemma detect_patterns_too_few_witness :
  Z.of_nat (length (fetch_deshields db_zero 1700100000 30 0)) < 5
  /\ returned (@detect_patterns Reference.libm db_zero 1700100000 30 5 0 0.0001 false true)
     = Ok []
  /\ conn_after (@detect_patterns Reference.libm db_zero 1700100000 30 5 0 0.0001 false true)
     = db_zero
  /\ last (printed (@detect_patterns Reference.libm db_zero 1700100000 30 5 0 0.0001
                      false true))
     = Some NotEnoughDeshields.
Proof.
  split; [reflexivity|].
  apply (@detect_patterns_too_few Reference.libm db_zero 1700100000 30 5
           0%float 0.0001%float false true 0);
    [reflexivity | reflexivity].
Defined.

